(** * B-spline wavelets of sysidentpy: a shallow embedding of
    [sysidentpy/basis_function/_bspline.py]

    Numbers.  Python floats are modelled by exact rationals together with a
    NaN: every finite double is a rational, the breakpoints of the piecewise
    definitions (multiples of 1/2) are doubles, and ordered comparisons of
    doubles are exact.  Rounding of the arithmetic and the two infinities
    are not modelled.  The factor [2**(j/2)] is irrational for odd [j]; the
    product with it is kept exact in the field Q(sqrt 2). *)

From Stdlib Require Import ZArith QArith List String Bool Lia Lqa DecimalString.
From stdpp Require Import gmap.
Import ListNotations.

(** ** Exceptions and results *)

Inductive exn : Type :=
| NotImplementedError (msg : option string)
| TypeError
| ValueError.

Inductive result (A : Type) : Type :=
| Ok (a : A)
| Raise (e : exn).
Arguments Ok {A} a.
Arguments Raise {A} e.

#[global] Instance result_ret : MRet result := fun A a => Ok a.

#[global] Instance result_bind : MBind result := fun A B k r =>
  match r with
  | Ok a => k a
  | Raise e => Raise e
  end.

(** A list comprehension [[f(a) for a in l]] is stdpp's [mapM f l]: the
    elements are computed from left to right and the first exception ends
    the comprehension. *)

(** ** Floats *)

Inductive fp (A : Type) : Type :=
| Fin (a : A)
| NaN.
Arguments Fin {A} a.
Arguments NaN {A}.

Definition float : Type := fp Q.

Definition fp_map {A B : Type} (f : A -> B) (x : fp A) : fp B :=
  match x with
  | Fin a => Fin (f a)
  | NaN => NaN
  end.

Definition fp_map2 {A B C : Type} (f : A -> B -> C) (x : fp A) (y : fp B) : fp C :=
  match x, y with
  | Fin a, Fin b => Fin (f a b)
  | _, _ => NaN
  end.

Definition Qlt_bool (a b : Q) : bool :=
  (Qnum a * Zpos (Qden b) <? Qnum b * Zpos (Qden a))%Z.

(** Ordered comparisons: false as soon as one side is NaN. *)
Definition flt (x y : float) : bool :=
  match x, y with
  | Fin a, Fin b => Qlt_bool a b
  | _, _ => false
  end.

Definition fle (x y : float) : bool :=
  match x, y with
  | Fin a, Fin b => Qle_bool a b
  | _, _ => false
  end.

Definition fge (x y : float) : bool := fle y x.

Definition fmul : float -> float -> float := fp_map2 Qmult.
Definition fsub : float -> float -> float := fp_map2 Qminus.

(** ** The field Q(sqrt 2): [rat + irr * sqrt 2] *)

Record surd : Type := Surd { rat : Q; irr : Q }.

(** [2**(j / 2)] for an integer [j]: a power of two for even [j], a power of
    two times [sqrt 2] for odd [j]. *)
Definition pow2_half (j : Z) : surd :=
  if Z.even j then Surd (2 ^ (j / 2)%Z)%Q 0%Q else Surd 0%Q (2 ^ ((j - 1) / 2)%Z)%Q.

Definition surd_scale (s : surd) (q : Q) : surd :=
  Surd (rat s * q)%Q (irr s * q)%Q.

(** ** numpy arrays of dimension 0, 1 and 2 *)

Inductive ndarray (A : Type) : Type :=
| Scalar (a : A)
| Arr1 (l : list A)
| Arr2 (rows : list (list A)).
Arguments Scalar {A} a.
Arguments Arr1 {A} l.
Arguments Arr2 {A} rows.

(** Elementwise application (numpy broadcasting of a scalar operation). *)
Definition amap {A B : Type} (f : A -> B) (x : ndarray A) : ndarray B :=
  match x with
  | Scalar a => Scalar (f a)
  | Arr1 l => Arr1 (map f l)
  | Arr2 rows => Arr2 (map (map f) rows)
  end.

Definition ndim {A : Type} (x : ndarray A) : nat :=
  match x with
  | Scalar _ => 0
  | Arr1 _ => 1
  | Arr2 _ => 2
  end.

Definition atleast_1d {A : Type} (x : ndarray A) : ndarray A :=
  match x with
  | Scalar a => Arr1 [a]
  | _ => x
  end.

(** [np.hstack]: every array is made at least 1-D; 1-D arrays are joined end
    to end (axis 0), arrays of higher dimension are joined along axis 1.
    An empty sequence, mixed dimensions and differing row counts raise
    ValueError. *)
Fixpoint concatenate0 {A : Type} (arrs : list (ndarray A)) : result (list A) :=
  match arrs with
  | [] => Ok []
  | Arr1 l :: arrs' => ls ← concatenate0 arrs'; mret (l ++ ls)
  | _ :: _ => Raise ValueError
  end.

Fixpoint concatenate1 {A : Type} (arrs : list (ndarray A)) : result (list (list A)) :=
  match arrs with
  | [] => Raise ValueError
  | Arr2 rows :: arrs' =>
      match arrs' with
      | [] => Ok rows
      | _ :: _ =>
          rest ← concatenate1 arrs';
          if Nat.eqb (length rows) (length rest)
          then mret (zip_with (fun r r' => r ++ r') rows rest)
          else Raise ValueError
      end
  | _ :: _ => Raise ValueError
  end.

Definition hstack {A : Type} (tup : list (ndarray A)) : result (ndarray A) :=
  let arrs := map atleast_1d tup in
  match arrs with
  | [] => Raise ValueError
  | a :: _ =>
      if Nat.eqb (ndim a) 1
      then l ← concatenate0 arrs; mret (Arr1 l)
      else rows ← concatenate1 arrs; mret (Arr2 rows)
  end.

(** ** np.piecewise *)

(** The three shapes of predicate of the condition lists:
    [x < a], [(a <= x) & (x < b)] and [x >= a]. *)
Inductive cond : Type :=
| Lt (a : Q)
| Between (a b : Q)
| Ge (a : Q).

Definition holds (x : float) (c : cond) : bool :=
  match c with
  | Lt a => flt x (Fin a)
  | Between a b => fle (Fin a) x && flt x (Fin b)
  | Ge a => fge x (Fin a)
  end.

(** An entry of a function list: a constant or a [lambda x: ...].  The
    lambdas are polynomials, and floating-point arithmetic maps NaN to NaN. *)
Inductive branch : Type :=
| Const (c : Q)
| Fn (f : Q -> Q).

Definition call (f : branch) (x : float) : float :=
  match f with
  | Const c => Fin c
  | Fn f => fp_map f x
  end.

(** One element of [np.piecewise]: [y] starts at zero and every pair
    [(cond, func)] of [zip(condlist, funclist)] whose condition is true
    overwrites it, in list order. *)
Definition select (x : float) (condlist : list bool) (funclist : list branch) : float :=
  fold_left (fun (y : float) (cf : bool * branch) =>
               if fst cf then call (snd cf) x else y)
            (combine condlist funclist) (Fin 0%Q).

(** [np.piecewise(x, condlist, funclist)].  The conditions are comparisons
    of [x], evaluated elementwise; with one function more than conditions
    the last function is the default, any other difference in length is a
    ValueError. *)
Definition piecewise (x : ndarray float) (condlist : list cond) (funclist : list branch)
  : result (ndarray float) :=
  let n := length condlist in
  let n2 := length funclist in
  if Nat.eqb (S n) n2 then
    Ok (amap (fun e => let cs := map (holds e) condlist in
                       select e (cs ++ [negb (existsb id cs)]) funclist) x)
  else if Nat.eqb n n2 then
    Ok (amap (fun e => select e (map (holds e) condlist) funclist) x)
  else Raise ValueError.

(** ** Python integers and floats in the index arithmetic *)

Inductive pynum : Type :=
| PyInt (z : Z)
| PyFloat (q : Q).

(** [2**e] for an integer [e] is an int when [e >= 0] and a float otherwise. *)
Definition pypow2 (e : Z) : pynum :=
  if (0 <=? e)%Z then PyInt (2 ^ e)%Z else PyFloat (2 ^ e)%Q.

Definition pyneg (a : pynum) : pynum :=
  match a with
  | PyInt z => PyInt (- z)%Z
  | PyFloat q => PyFloat (- q)%Q
  end.

Definition pyadd (a b : pynum) : pynum :=
  match a, b with
  | PyInt x, PyInt y => PyInt (x + y)%Z
  | PyInt x, PyFloat y => PyFloat (inject_Z x + y)%Q
  | PyFloat x, PyInt y => PyFloat (x + inject_Z y)%Q
  | PyFloat x, PyFloat y => PyFloat (x + y)%Q
  end.

(** [range(start, stop)]: the integers [start, start+1, ..., stop-1]; a
    float argument is a TypeError. *)
Definition range (start stop : pynum) : result (list Z) :=
  match start, stop with
  | PyInt a, PyInt b =>
      Ok (map (fun i => (a + Z.of_nat i)%Z) (seq 0 (Z.to_nat (b - a))))
  | _, _ => Raise TypeError
  end.

(** ** The condition and function lists of the five orders

    The literals are those of the source: [a / b] is the exact quotient,
    [x^n] is [x**n]. *)

Local Open Scope Q_scope.

Definition BSpline1_phi_condlist : list cond :=
  [Lt 0; Between 0 1; Ge 1].

Definition BSpline1_phi_funclist : list branch :=
  [ Const 0
  ; Const 1
  ; Const 0 ].

Definition BSpline1_psi_condlist : list cond :=
  [Lt 0; Between 0 (1 / 2); Between (1 / 2) 1; Ge 1].

Definition BSpline1_psi_funclist : list branch :=
  [ Const 0
  ; Const 1
  ; Const (-1)
  ; Const 0 ].

Definition BSpline2_phi_condlist : list cond :=
  [Lt 0; Between 0 1; Between 1 2; Ge 2].

Definition BSpline2_phi_funclist : list branch :=
  [ Const 0
  ; Fn (fun x => x)
  ; Fn (fun x => -x + 2)
  ; Const 0 ].

Definition BSpline2_psi_condlist : list cond :=
  [Lt 0; Between 0 (1 / 2); Between (1 / 2) 1; Between 1 (3 / 2);
   Between (3 / 2) 2; Between 2 (5 / 2); Between (5 / 2) 3; Ge 3].

Definition BSpline2_psi_funclist : list branch :=
  [ Const 0
  ; Fn (fun x => 1 / 6 * x)
  ; Fn (fun x => -7 / 6 * x + 2 / 3)
  ; Fn (fun x => 8 / 3 * x - 19 / 6)
  ; Fn (fun x => -8 / 3 * x + 29 / 6)
  ; Fn (fun x => 7 / 6 * x - 17 / 6)
  ; Fn (fun x => -1 / 6 * x + 1 / 2)
  ; Const 0 ].

Definition BSpline3_phi_condlist : list cond :=
  [Lt 0; Between 0 1; Between 1 2; Between 2 3; Ge 3].

Definition BSpline3_phi_funclist : list branch :=
  [ Const 0
  ; Fn (fun x => 1 / 2 * x^2)
  ; Fn (fun x => -x^2 + 3 * x - 3 / 2)
  ; Fn (fun x => 1 / 2 * x^2 - 3 * x + 9 / 2)
  ; Const 0 ].

Definition BSpline3_psi_condlist : list cond :=
  [Lt 0; Between 0 (1 / 2); Between (1 / 2) 1; Between 1 (3 / 2);
   Between (3 / 2) 2; Between 2 (5 / 2); Between (5 / 2) 3;
   Between 3 (7 / 2); Between (7 / 2) 4; Between 4 (9 / 2);
   Between (9 / 2) 5; Ge 5].

Definition BSpline3_psi_funclist : list branch :=
  [ Const 0
  ; Fn (fun x => 1 / 240 * x^2)
  ; Fn (fun x => -31 / 240 * x^2 + 2 / 15 * x - 1 / 30)
  ; Fn (fun x => 103 / 120 * x^2 - 221 / 120 * x + 229 / 240)
  ; Fn (fun x => -313 / 120 * x^2 + 1027 / 120 * x - 1643 / 240)
  ; Fn (fun x => 22 / 5 * x^2 - 779 / 40 * x + 339 / 16)
  ; Fn (fun x => -22 / 5 * x^2 + 981 / 40 * x - 541 / 16)
  ; Fn (fun x => 313 / 120 * x^2 - 701 / 40 * x + 2341 / 80)
  ; Fn (fun x => -103 / 120 * x^2 + 809 / 120 * x - 3169 / 240)
  ; Fn (fun x => 31 / 240 * x^2 - 139 / 120 * x + 623 / 240)
  ; Fn (fun x => -1 / 240 * x^2 + 1 / 24 * x - 5 / 48)
  ; Const 0 ].

Definition BSpline4_phi_condlist : list cond :=
  [Lt 0; Between 0 1; Between 1 2; Between 2 3; Between 3 4; Ge 4].

Definition BSpline4_phi_funclist : list branch :=
  [ Const 0
  ; Fn (fun x => 1 / 6 * x^3)
  ; Fn (fun x => -1 / 2 * x^3 + 2 * x^2 - 2 * x + 2 / 3)
  ; Fn (fun x => 1 / 2 * x^3 - 4 * x^2 + 10 * x - 22 / 3)
  ; Fn (fun x => -1 / 6 * x^3 + 2 * x^2 - 8 * x + 32 / 3)
  ; Const 0 ].

Definition BSpline4_psi_condlist : list cond :=
  [Lt 0; Between 0 (1 / 2); Between (1 / 2) 1; Between 1 (3 / 2);
   Between (3 / 2) 2; Between 2 (5 / 2); Between (5 / 2) 3;
   Between 3 (7 / 2); Between (7 / 2) 4; Between 4 (9 / 2);
   Between (9 / 2) 5; Between 5 (11 / 2); Between (11 / 2) 6;
   Between 6 (13 / 2); Between (13 / 2) 7; Ge 7].

Definition BSpline4_psi_funclist : list branch :=
  [ Const 0
  ; Fn (fun x => 1 / 30240 * x^3)
  ; Fn (fun x => -127 / 30240 * x^3 + 2 / 315 * x^2 - 1 / 315 * x + 1 /
      1890)
  ; Fn (fun x => 19 / 280 * x^3 - 47 / 224 * x^2 + 2147 / 10080 * x - 103 /
      1440)
  ; Fn (fun x => -1109 / 2520 * x^3 + 465 / 224 * x^2 - 32413 / 10080 * x +
      16559 / 10080)
  ; Fn (fun x => 5261 / 3360 * x^3 - 33463 / 3360 * x^2 + 42043 / 2016 * x -
      145193 / 10080)
  ; Fn (fun x => -35033 / 10080 * x^3 + 93577 / 3360 * x^2 - 148517 / 2016 *
      x + 216269 / 3360)
  ; Fn (fun x => 4832 / 945 * x^3 - 27691 / 560 * x^2 + 113923 / 720 * x -
      28145 / 168)
  ; Fn (fun x => -4832 / 945 * x^3 + 58393 / 1008 * x^2 - 52223 / 240 * x +
      2048227 / 7560)
  ; Fn (fun x => 35033 / 10080 * x^3 - 75827 / 1680 * x^2 + 981101 / 5040 *
      x - 234149 / 840)
  ; Fn (fun x => -5261 / 3360 * x^3 + 38509 / 1680 * x^2 - 112487 / 1008 * x
      + 30347 / 168)
  ; Fn (fun x => 1109 / 2520 * x^3 - 24077 / 3360 * x^2 + 78311 / 2016 * x -
      141311 / 2016)
  ; Fn (fun x => -19 / 280 * x^3 + 1361 / 1120 * x^2 - 14617 / 2016 * x +
      4151 / 288)
  ; Fn (fun x => 127 / 30240 * x^3 - 55 / 672 * x^2 + 5359 / 10080 * x -
      11603 / 10080)
  ; Fn (fun x => -1 / 30240 * x^3 + 1 / 1440 * x^2 - 7 / 1440 * x + 49 /
      4320)
  ; Const 0 ].

Definition BSpline5_phi_condlist : list cond :=
  [Lt 0; Between 0 1; Between 1 2; Between 2 3; Between 3 4; Between 4 5;
   Ge 5].

Definition BSpline5_phi_funclist : list branch :=
  [ Const 0
  ; Fn (fun x => 1 / 24 * x^4)
  ; Fn (fun x => -1 / 6 * x^4 + 5 / 6 * x^3 - 5 / 4 * x^2 + 5 / 6 * x - 5 /
      24)
  ; Fn (fun x => 1 / 4 * x^4 - 5 / 2 * x^3 + 35 / 4 * x^2 - 25 / 2 * x + 155
      / 24)
  ; Fn (fun x => -1 / 6 * x^4 + 5 / 2 * x^3 - 55 / 4 * x^2 + 65 / 2 * x -
      655 / 24)
  ; Fn (fun x => 1 / 24 * x^4 - 5 / 6 * x^3 + 25 / 4 * x^2 - 125 / 6 * x +
      625 / 24)
  ; Const 0 ].

Definition BSpline5_psi_condlist : list cond :=
  [Lt 0; Between 0 (1 / 2); Between (1 / 2) 1; Between 1 (3 / 2);
   Between (3 / 2) 2; Between 2 (5 / 2); Between (5 / 2) 3;
   Between 3 (7 / 2); Between (7 / 2) 4; Between 4 (9 / 2);
   Between (9 / 2) 5; Between 5 (11 / 2); Between (11 / 2) 6;
   Between 6 (13 / 2); Between (13 / 2) 7; Between 7 (15 / 2);
   Between (15 / 2) 8; Between 8 (17 / 2); Between (17 / 2) 9; Ge 9].

Definition BSpline5_psi_funclist : list branch :=
  [ Const 0
  ; Fn (fun x => 1 / 8709120 * x^4)
  ; Fn (fun x => -73 / 1244160 * x^4 + 1 / 8505 * x^3 - 1 / 11340 * x^2 + 1
      / 34020 * x - 1 / 272160)
  ; Fn (fun x => 9581 / 4354560 * x^4 - 19417 / 2177280 * x^3 + 1303 / 96768
      * x^2 - 19609 / 2177280 * x + 6547 / 2903040)
  ; Fn (fun x => -118931 / 4354560 * x^4 + 366119 / 2177280 * x^3 - 186253 /
      483840 * x^2 + 121121 / 311040 * x - 427181 / 2903040)
  ; Fn (fun x => 759239 / 4354560 * x^4 - 3146561 / 2177280 * x^3 + 6466601
      / 1451520 * x^2 - 13202873 / 2177280 * x + 26819897 / 8709120)
  ; Fn (fun x => -2980409 / 4354560 * x^4 + 5183893 / 725760 * x^3 -
      13426333 / 483840 * x^2 + 426589 / 8960 * x - 12635243 / 414720)
  ; Fn (fun x => 7873577 / 4354560 * x^4 - 16524079 / 725760 * x^3 + 7385369
      / 69120 * x^2 - 17868671 / 80640 * x + 497668543 / 2903040)
  ; Fn (fun x => -14714327 / 4354560 * x^4 + 108543091 / 2177280 * x^3 -
      56901557 / 207360 * x^2 + 1454458651 / 2177280 * x - 5286189059 /
      8709120)
  ; Fn (fun x => 15619 / 3402 * x^4 - 33822017 / 435456 * x^3 + 15828929 /
      32256 * x^2 - 597598433 / 435456 * x + 277413649 / 193536)
  ; Fn (fun x => -15619 / 3402 * x^4 + 38150335 / 435456 * x^3 - 20157247 /
      32256 * x^2 + 859841695 / 435456 * x - 64472345 / 27648)
  ; Fn (fun x => 14714327 / 4354560 * x^4 - 4466137 / 62208 * x^3 +
      165651247 / 290304 * x^2 - 875490655 / 435456 * x + 4614904015 /
      1741824)
  ; Fn (fun x => -7873577 / 4354560 * x^4 + 30717383 / 725760 * x^3 -
      179437319 / 483840 * x^2 + 16606729 / 11520 * x - 869722273 / 414720)
  ; Fn (fun x => 2980409 / 4354560 * x^4 - 12698561 / 725760 * x^3 +
      16211669 / 96768 * x^2 - 19138891 / 26880 * x + 3289787993 / 2903040)
  ; Fn (fun x => -759239 / 4354560 * x^4 + 10519741 / 2177280 * x^3 -
      10403603 / 207360 * x^2 + 71964499 / 311040 * x - 3481646837 /
      8709120)
  ; Fn (fun x => 118931 / 4354560 * x^4 - 1774639 / 2177280 * x^3 + 630259 /
      69120 * x^2 - 14096161 / 311040 * x + 245108501 / 2903040)
  ; Fn (fun x => -9581 / 4354560 * x^4 + 21863 / 311040 * x^3 - 407387 /
      483840 * x^2 + 9758873 / 2177280 * x - 25971499 / 2903040)
  ; Fn (fun x => 73 / 1244160 * x^4 - 4343 / 2177280 * x^3 + 5273 / 207360 *
      x^2 - 313703 / 2177280 * x + 380873 / 1244160)
  ; Fn (fun x => -1 / 8709120 * x^4 + 1 / 241920 * x^3 - 1 / 17920 * x^2 + 3
      / 8960 * x - 27 / 35840)
  ; Const 0 ].

Local Close Scope Q_scope.

(** ** The classes

    A class is its [order] attribute and, when it overrides them, the
    piecewise definitions of [phi] and [psi].  The instances carry no state
    of their own, so a class also stands for its instances. *)

Record piecewise_def : Type := Piecewise {
  condlist : list cond;
  funclist : list branch
}.

Record wavelets : Type := Class {
  order : option Z;
  phi_def : option piecewise_def;
  psi_def : option piecewise_def
}.

(** [phi] and [psi]: the base class raises NotImplementedError, the
    subclasses return [np.piecewise(x, [...], [...])]. *)
Definition phi (self : wavelets) (x : ndarray float) : result (ndarray float) :=
  match phi_def self with
  | None => Raise (NotImplementedError None)
  | Some d => piecewise x (condlist d) (funclist d)
  end.

Definition psi (self : wavelets) (x : ndarray float) : result (ndarray float) :=
  match psi_def self with
  | None => Raise (NotImplementedError None)
  | Some d => piecewise x (condlist d) (funclist d)
  end.

(** [2**j * x - k], elementwise. *)
Definition dilate (j k : Z) (x : float) : float :=
  fsub (fmul (Fin (2 ^ j)%Q) x) (Fin (inject_Z k)).

(** [2**(j / 2) * y], elementwise. *)
Definition scale (j : Z) (y : float) : fp surd :=
  fp_map (surd_scale (pow2_half j)) y.

Definition phi_j_k (self : wavelets) (x : ndarray float) (j k : Z)
  : result (ndarray (fp surd)) :=
  y ← phi self (amap (dilate j k) x); mret (amap (scale j) y).

Definition psi_j_k (self : wavelets) (x : ndarray float) (j k : Z)
  : result (ndarray (fp surd)) :=
  y ← psi self (amap (dilate j k) x); mret (amap (scale j) y).

(** A [for] loop over a list that threads an accumulator and stops at the
    first exception. *)
Fixpoint for_each {A S : Type} (body : S -> A -> result S) (l : list A) (s : S)
  : result S :=
  match l with
  | [] => Ok s
  | a :: l' => s' ← body s a; for_each body l' s'
  end.

(** The arithmetic on [self.order] is a TypeError when the order is None. *)
Definition phi_range (self : wavelets) : result (list (Z * Z)) :=
  match order self with
  | None => Raise TypeError
  | Some n =>
      let phi_j := 0%Z in
      phi_range ← range (PyInt (- (n - 1))) (PyInt 1);
      mret (map (fun k => (phi_j, k)) phi_range)
  end.

Definition psi_range (self : wavelets) : result (list (Z * Z)) :=
  match order self with
  | None => Raise TypeError
  | Some n =>
      js ← range (PyInt 0) (PyInt (n + 1));
      for_each
        (fun psi_ranges psi_j =>
           psi_range ← range (pyadd (pyneg (pypow2 (n - 1))) (PyInt 1))
                             (pypow2 psi_j);
           mret (psi_ranges ++ map (fun k => (psi_j, k)) psi_range))
        js []
  end.

Definition phi_len (self : wavelets) : result nat :=
  r ← phi_range self; mret (length r).

Definition psi_len (self : wavelets) : result nat :=
  r ← psi_range self; mret (length r).

Definition repetition (self : wavelets) : result nat :=
  a ← phi_len self; b ← psi_len self; mret (a + b)%nat.

Definition decompose (self : wavelets) (x : ndarray float)
  : result (ndarray (fp surd)) :=
  pr ← phi_range self;
  make_phi ← mapM (fun jk => phi_j_k self x (fst jk) (snd jk)) pr;
  qr ← psi_range self;
  make_psi ← mapM (fun jk => psi_j_k self x (fst jk) (snd jk)) qr;
  hstack (make_phi ++ make_psi).

Definition BSplineWavelets : wavelets :=
  Class None None None.

Definition BSpline1 : wavelets :=
  Class (Some 1%Z)
        (Some (Piecewise BSpline1_phi_condlist BSpline1_phi_funclist))
        (Some (Piecewise BSpline1_psi_condlist BSpline1_psi_funclist)).

Definition BSpline2 : wavelets :=
  Class (Some 2%Z)
        (Some (Piecewise BSpline2_phi_condlist BSpline2_phi_funclist))
        (Some (Piecewise BSpline2_psi_condlist BSpline2_psi_funclist)).

Definition BSpline3 : wavelets :=
  Class (Some 3%Z)
        (Some (Piecewise BSpline3_phi_condlist BSpline3_phi_funclist))
        (Some (Piecewise BSpline3_psi_condlist BSpline3_psi_funclist)).

Definition BSpline4 : wavelets :=
  Class (Some 4%Z)
        (Some (Piecewise BSpline4_phi_condlist BSpline4_phi_funclist))
        (Some (Piecewise BSpline4_psi_condlist BSpline4_psi_funclist)).

Definition BSpline5 : wavelets :=
  Class (Some 5%Z)
        (Some (Piecewise BSpline5_phi_condlist BSpline5_phi_funclist))
        (Some (Piecewise BSpline5_psi_condlist BSpline5_psi_funclist)).

(** ** The registry of the metaclass

    [MetaBSplineWavelets.__new__] runs once for every class statement, in
    the order of the file, and stores the class under its [order]
    attribute; all six classes derive from [_BSplineWaveletsBase]. *)

Definition register (cls_map : gmap (option Z) wavelets) (cls : wavelets)
  : gmap (option Z) wavelets :=
  <[order cls := cls]> cls_map.

Definition cls_map : gmap (option Z) wavelets :=
  fold_left register
    [BSplineWavelets; BSpline1; BSpline2; BSpline3; BSpline4; BSpline5] ∅.

(** [str(order)] *)
Definition str (order : option Z) : string :=
  match order with
  | None => "None"%string
  | Some z => NilEmpty.string_of_int (Z.to_int z)
  end.

Definition not_implemented (order : option Z) : exn :=
  NotImplementedError
    (Some (String.append "B-spline wavelet with order "
             (String.append (str order) " not implemented!"))).

(** [MetaBSplineWavelets.get]: the result of [dict.get] is the class, or
    None for a missing key. *)
Definition get (order : option Z) : result (option wavelets) :=
  match cls_map !! order with
  | None => Raise (not_implemented order)
  | Some _ => Ok (cls_map !! order)
  end.

(** [get_bspline]: a class object is true, None is false. *)
Definition get_bspline (order : option Z) : result wavelets :=
  cls ← get order;
  mret (match cls with
        | Some c => c
        | None => BSplineWavelets
        end).

(** The entry point of the specification, [decompose(x, order)]:
    [get_bspline(order).decompose(x)]. *)
Definition decompose_order (x : ndarray float) (order : option Z)
  : result (ndarray (fp surd)) :=
  self ← get_bspline order; decompose self x.

(** ** Notions used to state the properties *)

(** The value of one element under a piecewise definition. *)
Definition eval (d : piecewise_def) (x : float) : float :=
  select x (map (holds x) (condlist d)) (funclist d).

(** The number of predicates of a condition list that are true at [x]. *)
Definition count_true (x : float) (cs : list cond) : nat :=
  length (List.filter (holds x) cs).

(** The polynomial of a branch at a rational point. *)
Definition poly (f : branch) (q : Q) : Q :=
  match f with
  | Const c => c
  | Fn f => f q
  end.

(** The junctions of a piecewise definition: the common bound of two
    adjacent bounded intervals, with the branch on its left and the branch
    on its right.  The two unbounded predicates at the ends take no part. *)
Fixpoint junctions (cs : list cond) (fs : list branch) : list (Q * branch * branch) :=
  match cs, fs with
  | c :: cs', f :: fs' =>
      match c, cs', fs' with
      | Between _ b, Between _ _ :: _, g :: _ => (b, f, g) :: junctions cs' fs'
      | _, _, _ => junctions cs' fs'
      end
  | _, _ => []
  end.

(** A condition list of the shape
    [x < b0], [b0 <= x < b1], ..., [b(m-1) <= x < bm], [x >= bm]
    with [b0 <= b1 <= ... <= bm]. *)
Fixpoint chained (b : Q) (cs : list cond) : bool :=
  match cs with
  | [Ge a] => Qeq_bool b a
  | Between a a' :: cs' => Qeq_bool b a && Qle_bool a a' && chained a' cs'
  | _ => false
  end.

Definition partitions (cs : list cond) : bool :=
  match cs with
  | Lt b :: cs' => chained b cs'
  | _ => false
  end.

(** The index lists in the words of the specification: [lo .. hi] is the
    ascending list of the integers from [lo] to [hi], both included. *)
Fixpoint upfrom (lo : Z) (len : nat) : list Z :=
  match len with
  | O => []
  | S len' => lo :: upfrom (lo + 1) len'
  end.

Definition interval (lo hi : Z) : list Z :=
  upfrom lo (Z.to_nat (hi - lo + 1)).

Definition spec_phi_list (n : Z) : list (Z * Z) :=
  map (fun k => (0, k)%Z) (interval (- (n - 1)) 0).

Definition spec_psi_list (n : Z) : list (Z * Z) :=
  flat_map (fun j => map (fun k => (j, k)) (interval (- 2 ^ (n - 1) + 1) (2 ^ j - 1)))
           (interval 0 n).

(** The feature of index [(j, k)] of one sample under the piecewise
    definition [d]: [2**(j/2) * d(2**j * x - k)]. *)
Definition feature (d : piecewise_def) (jk : Z * Z) (x : float) : fp surd :=
  scale (fst jk) (eval d (dilate (fst jk) (snd jk) x)).

(** The features of a class of order [n] whose [phi] and [psi] are [dphi]
    and [dpsi], as functions of one sample, in the order of [decompose]. *)
Definition features (n : Z) (dphi dpsi : piecewise_def) : list (float -> fp surd) :=
  map (feature dphi) (spec_phi_list n) ++ map (feature dpsi) (spec_psi_list n).

(** The number of indices of [psi] written as a sum over the levels [j]. *)
Definition psi_count (n : Z) : Z :=
  (n + 1) * (2 ^ (n - 1) - 1) + (2 ^ (n + 1) - 1).

(** The edges of the support: the bound shared by the first predicate and
    the first bounded interval, with the branch of that interval, and the
    bound shared by the last bounded interval and the last predicate, with
    the branch of that interval. *)
Fixpoint edges (cs : list cond) (fs : list branch) : list (Q * branch) :=
  match cs, fs with
  | c :: cs', f :: fs' =>
      match c, cs', fs' with
      | Lt a, Between _ _ :: _, g :: _ => (a, g) :: edges cs' fs'
      | Between _ b, Ge _ :: _, _ => (b, f) :: edges cs' fs'
      | _, _, _ => edges cs' fs'
      end
  | _, _ => []
  end.

(** A function list whose polynomials mirror each other about [c / 2], up
    to the sign [sign]: the branch at position [a] at [q] is [sign] times
    the branch at the mirrored position at [c - q].  The first and the last
    entry (the zeros outside the support) take no part. *)
Definition mirrored (fs : list branch) (c sign : Q) : Prop :=
  forall (a : nat) (f g : branch) (q : Q),
    (1 <= a <= length fs - 2)%nat ->
    nth_error fs a = Some f -> nth_error fs (length fs - 1 - a) = Some g ->
    (poly f q == sign * poly g (c - q))%Q.

(** What the five registered subclasses have in common. *)
Record well_formed (n : Z) (self : wavelets) (dphi dpsi : piecewise_def) : Prop := {
  wf_order : order self = Some n;
  wf_range : (1 <= n <= 5)%Z;
  wf_phi : phi_def self = Some dphi;
  wf_psi : psi_def self = Some dpsi;
  wf_phi_len : length (condlist dphi) = length (funclist dphi);
  wf_psi_len : length (condlist dpsi) = length (funclist dpsi);
  wf_phi_part : partitions (condlist dphi) = true;
  wf_psi_part : partitions (condlist dpsi) = true
}.

(** ** The registry *)

Lemma cls_map_unfold :
  cls_map = <[Some 5%Z := BSpline5]> (<[Some 4%Z := BSpline4]>
            (<[Some 3%Z := BSpline3]> (<[Some 2%Z := BSpline2]>
            (<[Some 1%Z := BSpline1]> (<[None := BSplineWavelets]> ∅))))).
Proof. reflexivity. Qed.

Lemma registered_cases (n : Z) (self : wavelets) :
  cls_map !! Some n = Some self ->
  (n = 1%Z /\ self = BSpline1) \/ (n = 2%Z /\ self = BSpline2) \/
  (n = 3%Z /\ self = BSpline3) \/ (n = 4%Z /\ self = BSpline4) \/
  (n = 5%Z /\ self = BSpline5).
Proof.
  rewrite cls_map_unfold.
  repeat (rewrite lookup_insert_Some; intros [[Hk Hv] | [_ H]];
          [ injection Hk as <-; subst self; tauto | revert H ]).
  rewrite lookup_insert_Some. intros [[Hk _] | [_ H]]; [ discriminate | ].
  rewrite lookup_empty in H. discriminate.
Qed.

Lemma unregistered_iff (order : option Z) :
  cls_map !! order = None <->
  order <> None /\ forall n, (1 <= n <= 5)%Z -> order <> Some n.
Proof.
  rewrite cls_map_unfold. repeat rewrite lookup_insert_None.
  rewrite lookup_empty. split.
  - intros [[[[[[_ H0] H1] H2] H3] H4] H5]. split; [ congruence | ].
    intros n Hn ->.
    assert (n = 1 \/ n = 2 \/ n = 3 \/ n = 4 \/ n = 5)%Z as Hc by lia.
    destruct Hc as [-> | [-> | [-> | [-> | ->]]]]; congruence.
  - intros [H0 Hn]. repeat split; try congruence; apply not_eq_sym, Hn; lia.
Qed.

Lemma registered_subclasses :
  cls_map !! Some 1%Z = Some BSpline1 /\ cls_map !! Some 2%Z = Some BSpline2 /\
  cls_map !! Some 3%Z = Some BSpline3 /\ cls_map !! Some 4%Z = Some BSpline4 /\
  cls_map !! Some 5%Z = Some BSpline5.
Proof.
  rewrite cls_map_unfold.
  repeat split; repeat (rewrite lookup_insert_ne by discriminate);
    apply lookup_insert_eq.
Qed.

Lemma base_class_lookup :
  cls_map !! None = Some BSplineWavelets /\
  get_bspline None = Ok BSplineWavelets /\
  decompose BSplineWavelets = (fun x => Raise TypeError).
Proof.
  assert (cls_map !! None = Some BSplineWavelets) as Hl.
  { rewrite cls_map_unfold.
    repeat (rewrite lookup_insert_ne by discriminate).
    apply lookup_insert_eq. }
  split; [ exact Hl | ]. split; [ | reflexivity ].
  unfold get_bspline, get. rewrite Hl. reflexivity.
Qed.

(** C10.  The base class registers itself under the key None: the lookup of
    None succeeds, [get_bspline(None)] raises nothing and returns the base
    class, whose [phi] and [psi] raise a bare NotImplementedError on every
    input. *)
Theorem base_class_registered_under_None :
  cls_map !! None = Some BSplineWavelets /\
  get_bspline None = Ok BSplineWavelets /\
  (forall x, phi BSplineWavelets x = Raise (NotImplementedError None)) /\
  (forall x, psi BSplineWavelets x = Raise (NotImplementedError None)).
Proof.
  assert (cls_map !! None = Some BSplineWavelets) as Hl.
  { rewrite cls_map_unfold.
    repeat (rewrite lookup_insert_ne by discriminate).
    apply lookup_insert_eq. }
  split; [ exact Hl | ]. split; [ | split; intros x; reflexivity ].
  unfold get_bspline, get. rewrite Hl. reflexivity.
Qed.

(** C7.  An order without an entry in the registry makes [get], and with it
    [get_bspline] and [decompose] through it, raise the error whose message
    is built from the requested order; the result carries nothing else. *)
Theorem unsupported_order_raises (order : option Z) :
  cls_map !! order = None ->
  get order = Raise (not_implemented order) /\
  get_bspline order = Raise (not_implemented order) /\
  (forall x, decompose_order x order = Raise (not_implemented order)) /\
  not_implemented order =
    NotImplementedError
      (Some (String.append "B-spline wavelet with order "
               (String.append (str order) " not implemented!"))).
Proof.
  intros Hl.
  assert (get order = Raise (not_implemented order)) as Hg.
  { unfold get. rewrite Hl. reflexivity. }
  assert (get_bspline order = Raise (not_implemented order)) as Hb.
  { unfold get_bspline. rewrite Hg. reflexivity. }
  repeat split; try assumption.
  intros x. unfold decompose_order. rewrite Hb. reflexivity.
Qed.

Lemma unsupported_order_raises_witness :
  cls_map !! Some 6%Z = None /\
  get_bspline (Some 6%Z) =
    Raise (NotImplementedError
             (Some "B-spline wavelet with order 6 not implemented!"%string)).
Proof.
  assert (cls_map !! Some 6%Z = None) as Hl by (vm_compute; reflexivity).
  split; [ exact Hl | ].
  exact (proj1 (proj2 (unsupported_order_raises (Some 6%Z) Hl))).
Defined.

(** ** Ordered comparisons *)

Lemma Qlt_bool_negb (a b : Q) : Qlt_bool a b = negb (Qle_bool b a).
Proof. unfold Qlt_bool, Qle_bool. apply Z.ltb_antisym. Qed.

Lemma Qlt_bool_iff (a b : Q) : Qlt_bool a b = true <-> (a < b)%Q.
Proof. unfold Qlt_bool, Qlt. apply Z.ltb_lt. Qed.

Lemma Qle_bool_false_iff (a b : Q) : Qle_bool a b = false <-> (b < a)%Q.
Proof.
  rewrite <- Qlt_bool_iff, Qlt_bool_negb.
  destruct (Qle_bool a b); simpl; intuition congruence.
Qed.

Lemma Qle_bool_below (a b q : Q) :
  Qle_bool a b = true -> Qle_bool a q = false -> Qle_bool b q = false.
Proof.
  rewrite Qle_bool_iff, !Qle_bool_false_iff. intros Hab Hq.
  eapply Qlt_le_trans; eassumption.
Qed.

Lemma Qle_bool_eq_l (a b q : Q) :
  Qeq_bool a b = true -> Qle_bool a q = Qle_bool b q.
Proof.
  rewrite Qeq_bool_iff. intros Hab.
  destruct (Qle_bool b q) eqn:Hb.
  - apply Qle_bool_iff. rewrite Hab. apply Qle_bool_iff, Hb.
  - apply Qle_bool_false_iff. rewrite Hab. apply Qle_bool_false_iff, Hb.
Qed.

Lemma holds_NaN (c : cond) : holds NaN c = false.
Proof. destruct c; reflexivity. Qed.

Lemma count_true_NaN (cs : list cond) : count_true NaN cs = 0%nat.
Proof.
  unfold count_true. induction cs as [| c cs IH]; simpl; [ reflexivity | ].
  rewrite holds_NaN. exact IH.
Qed.

(** ** Condition lists that partition the line *)

Lemma count_true_cons (x : float) (c : cond) (cs : list cond) :
  count_true x (c :: cs) =
  ((if holds x c then 1 else 0) + count_true x cs)%nat.
Proof. unfold count_true. simpl. destruct (holds x c); reflexivity. Qed.

Lemma chained_count (cs : list cond) : forall (b q : Q),
  chained b cs = true ->
  count_true (Fin q) cs = if Qle_bool b q then 1%nat else 0%nat.
Proof.
  induction cs as [| c cs IH]; intros b q H; simpl in H; [ discriminate | ].
  destruct c as [a | a a' | a]; [ discriminate | | ].
  - apply andb_prop in H as [H Hc]. apply andb_prop in H as [Hba Haa'].
    rewrite count_true_cons, (IH _ _ Hc), (Qle_bool_eq_l _ _ _ Hba).
    simpl. rewrite Qlt_bool_negb.
    destruct (Qle_bool a q) eqn:Ha; simpl.
    + destruct (Qle_bool a' q); reflexivity.
    + rewrite (Qle_bool_below _ _ _ Haa' Ha). reflexivity.
  - destruct cs; [ | discriminate ].
    rewrite count_true_cons, (Qle_bool_eq_l _ _ _ H). unfold count_true. simpl.
    unfold fge. simpl. destruct (Qle_bool a q); reflexivity.
Qed.

Lemma partitions_count (cs : list cond) (q : Q) :
  partitions cs = true -> count_true (Fin q) cs = 1%nat.
Proof.
  destruct cs as [| [b | |] cs]; try discriminate. simpl. intros H.
  rewrite count_true_cons, (chained_count _ _ q H). simpl.
  rewrite Qlt_bool_negb. destruct (Qle_bool b q); reflexivity.
Qed.

Lemma count_true_zero (x : float) (cs : list cond) :
  count_true x cs = 0%nat -> Forall (fun c => holds x c = false) cs.
Proof.
  induction cs as [| c cs IH]; [ constructor | ].
  rewrite count_true_cons. destruct (holds x c) eqn:Hc; [ discriminate | ].
  intros H. constructor; [ exact Hc | apply IH, H ].
Qed.

(** ** The value selected by [np.piecewise] *)

Lemma select_all_false (x : float) (cs : list cond) : forall fs y,
  Forall (fun c => holds x c = false) cs ->
  fold_left (fun (y : float) (cf : bool * branch) =>
               if fst cf then call (snd cf) x else y)
            (combine (map (holds x) cs) fs) y = y.
Proof.
  induction cs as [| c cs IH]; intros fs y H; [ reflexivity | ].
  destruct fs as [| f fs]; [ reflexivity | ].
  inversion H as [| ? ? Hc Hcs]; subst. simpl. rewrite Hc. apply IH, Hcs.
Qed.

Lemma combine_app {A B : Type} (l1 l2 : list A) : forall k1 k2 : list B,
  length l1 = length k1 ->
  combine (l1 ++ l2) (k1 ++ k2) = combine l1 k1 ++ combine l2 k2.
Proof.
  induction l1 as [| a l1 IH]; intros [| b k1] k2 H; try discriminate.
  - reflexivity.
  - simpl. f_equal. apply IH. simpl in H. congruence.
Qed.

(** Left of the first breakpoint the first branch is selected. *)
Lemma eval_below (d : piecewise_def) (b q : Q) cs f fs :
  condlist d = Lt b :: cs -> funclist d = f :: fs ->
  chained b cs = true -> (q < b)%Q ->
  eval d (Fin q) = call f (Fin q).
Proof.
  intros Hc Hf Hch Hq. unfold eval, select. rewrite Hc, Hf. simpl.
  apply Qlt_bool_iff in Hq as Hq'. rewrite Hq'.
  apply select_all_false, count_true_zero.
  rewrite (chained_count _ _ q Hch).
  apply Qle_bool_false_iff in Hq. rewrite Hq. reflexivity.
Qed.

(** From the last breakpoint on the last branch is selected. *)
Lemma eval_above (d : piecewise_def) (a q : Q) rcs f rfs :
  rev (condlist d) = Ge a :: rcs -> rev (funclist d) = f :: rfs ->
  length rcs = length rfs -> (a <= q)%Q ->
  eval d (Fin q) = call f (Fin q).
Proof.
  intros Hc Hf Hlen Hq. unfold eval, select.
  apply (f_equal (@rev cond)) in Hc. apply (f_equal (@rev branch)) in Hf.
  rewrite rev_involutive in Hc, Hf. simpl in Hc, Hf. rewrite Hc, Hf.
  rewrite map_app. simpl.
  rewrite combine_app by (rewrite length_map, !length_rev; exact Hlen).
  rewrite fold_left_app. simpl. unfold fge. simpl.
  apply Qle_bool_iff in Hq. rewrite Hq. reflexivity.
Qed.

(** ** The registered classes *)

Lemma piecewise_eval (d : piecewise_def) (x : ndarray float) :
  length (condlist d) = length (funclist d) ->
  piecewise x (condlist d) (funclist d) = Ok (amap (eval d) x).
Proof.
  intros H. unfold piecewise. rewrite <- H.
  replace (Nat.eqb (S (length (condlist d))) (length (condlist d))) with false
    by (symmetry; apply Nat.eqb_neq; lia).
  rewrite Nat.eqb_refl. reflexivity.
Qed.

Lemma phi_eval (self : wavelets) (d : piecewise_def) (x : ndarray float) :
  phi_def self = Some d -> length (condlist d) = length (funclist d) ->
  phi self x = Ok (amap (eval d) x).
Proof. intros Hd Hl. unfold phi. rewrite Hd. apply piecewise_eval, Hl. Qed.

Lemma psi_eval (self : wavelets) (d : piecewise_def) (x : ndarray float) :
  psi_def self = Some d -> length (condlist d) = length (funclist d) ->
  psi self x = Ok (amap (eval d) x).
Proof. intros Hd Hl. unfold psi. rewrite Hd. apply piecewise_eval, Hl. Qed.

Lemma registered_well_formed (n : Z) (self : wavelets) :
  cls_map !! Some n = Some self ->
  exists dphi dpsi, well_formed n self dphi dpsi.
Proof.
  intros H.
  destruct (registered_cases n self H)
    as [[-> ->] | [[-> ->] | [[-> ->] | [[-> ->] | [-> ->]]]]];
    eexists; eexists; split;
    first [ reflexivity | lia | vm_compute; reflexivity ].
Qed.

(** C4.  For each of the orders 1 to 5 and every rational [q] (every finite
    float is one), exactly one predicate of the condition list of [phi] and
    exactly one predicate of the condition list of [psi] is true at [q]. *)
Theorem exactly_one_branch (n : Z) (self : wavelets) :
  cls_map !! Some n = Some self ->
  (1 <= n <= 5)%Z /\
  exists dphi dpsi,
    phi_def self = Some dphi /\ psi_def self = Some dpsi /\
    forall q : Q,
      count_true (Fin q) (condlist dphi) = 1%nat /\
      count_true (Fin q) (condlist dpsi) = 1%nat.
Proof.
  intros H. destruct (registered_well_formed n self H) as (dphi & dpsi & W).
  split; [ exact (wf_range _ _ _ _ W) | ].
  exists dphi, dpsi.
  split; [ exact (wf_phi _ _ _ _ W) | ].
  split; [ exact (wf_psi _ _ _ _ W) | ].
  intros q. split; apply partitions_count.
  - exact (wf_phi_part _ _ _ _ W).
  - exact (wf_psi_part _ _ _ _ W).
Qed.

Lemma exactly_one_branch_witness :
  count_true (Fin (7 # 2)%Q) BSpline5_psi_condlist = 1%nat.
Proof.
  assert (cls_map !! Some 5%Z = Some BSpline5) as H by apply registered_subclasses.
  destruct (exactly_one_branch 5 BSpline5 H) as (_ & dphi & dpsi & _ & Hpsi & Hq).
  injection Hpsi as <-. exact (proj2 (Hq (7 # 2)%Q)).
Defined.

(** ** Compact support *)

Ltac support_below H :=
  etransitivity;
  [ eapply eval_below;
    [ reflexivity | reflexivity | vm_compute; reflexivity | exact H ]
  | reflexivity ].

Ltac support_above H :=
  etransitivity;
  [ eapply eval_above;
    [ reflexivity | reflexivity | reflexivity | exact H ]
  | reflexivity ].

Lemma support_cases (n : Z) (self : wavelets) (dphi dpsi : piecewise_def) (q : Q) :
  cls_map !! Some n = Some self ->
  phi_def self = Some dphi -> psi_def self = Some dpsi ->
  ((q < 0 \/ inject_Z n <= q)%Q -> eval dphi (Fin q) = Fin 0%Q) /\
  ((q < 0 \/ inject_Z (2 * n - 1) <= q)%Q -> eval dpsi (Fin q) = Fin 0%Q).
Proof.
  intros H Hphi Hpsi.
  destruct (registered_cases n self H)
    as [[-> ->] | [[-> ->] | [[-> ->] | [[-> ->] | [-> ->]]]]];
    injection Hphi as <-; injection Hpsi as <-;
    (split; (intros [Hq | Hq]; [ support_below Hq | support_above Hq ])).
Qed.

(** C5.  For each of the orders 1 to 5, [phi] is zero left of 0 and from
    [n] on, and [psi] is zero left of 0 and from [2n - 1] on. *)
Theorem compact_support (n : Z) (self : wavelets) (q : Q) :
  cls_map !! Some n = Some self ->
  ((q < 0 \/ inject_Z n <= q)%Q ->
   phi self (Scalar (Fin q)) = Ok (Scalar (Fin 0%Q))) /\
  ((q < 0 \/ inject_Z (2 * n - 1) <= q)%Q ->
   psi self (Scalar (Fin q)) = Ok (Scalar (Fin 0%Q))).
Proof.
  intros H. destruct (registered_well_formed n self H) as (dphi & dpsi & W).
  destruct (support_cases n self dphi dpsi q H
              (wf_phi _ _ _ _ W) (wf_psi _ _ _ _ W)) as [Hphi Hpsi].
  split; intros Hq.
  - rewrite (phi_eval self dphi _ (wf_phi _ _ _ _ W) (wf_phi_len _ _ _ _ W)).
    simpl. rewrite (Hphi Hq). reflexivity.
  - rewrite (psi_eval self dpsi _ (wf_psi _ _ _ _ W) (wf_psi_len _ _ _ _ W)).
    simpl. rewrite (Hpsi Hq). reflexivity.
Qed.

Lemma compact_support_witness :
  phi BSpline3 (Scalar (Fin 3%Q)) = Ok (Scalar (Fin 0%Q)) /\
  psi BSpline3 (Scalar (Fin (-1 # 2)%Q)) = Ok (Scalar (Fin 0%Q)).
Proof.
  assert (cls_map !! Some 3%Z = Some BSpline3) as H by apply registered_subclasses.
  split.
  - apply (proj1 (compact_support 3 BSpline3 3%Q H)).
    right. vm_compute. discriminate.
  - apply (proj2 (compact_support 3 BSpline3 (-1 # 2)%Q H)).
    left. reflexivity.
Defined.

(** ** NaN *)

Lemma eval_NaN (d : piecewise_def) : eval d NaN = Fin 0%Q.
Proof.
  unfold eval, select. apply select_all_false, count_true_zero, count_true_NaN.
Qed.

(** C8, as the code has it.  No predicate of a condition list is true at
    NaN, and [phi] and [psi] of the orders 1 to 5 then return the initial
    zero of [np.piecewise]; nothing is raised. *)
Theorem nan_gives_zero (n : Z) (self : wavelets) :
  cls_map !! Some n = Some self ->
  exists dphi dpsi,
    phi_def self = Some dphi /\ psi_def self = Some dpsi /\
    count_true NaN (condlist dphi) = 0%nat /\
    count_true NaN (condlist dpsi) = 0%nat /\
    phi self (Scalar NaN) = Ok (Scalar (Fin 0%Q)) /\
    psi self (Scalar NaN) = Ok (Scalar (Fin 0%Q)).
Proof.
  intros H. destruct (registered_well_formed n self H) as (dphi & dpsi & W).
  exists dphi, dpsi.
  split; [ exact (wf_phi _ _ _ _ W) | ].
  split; [ exact (wf_psi _ _ _ _ W) | ].
  split; [ apply count_true_NaN | ]. split; [ apply count_true_NaN | ].
  rewrite (phi_eval self dphi _ (wf_phi _ _ _ _ W) (wf_phi_len _ _ _ _ W)).
  rewrite (psi_eval self dpsi _ (wf_psi _ _ _ _ W) (wf_psi_len _ _ _ _ W)).
  simpl. rewrite !eval_NaN. split; reflexivity.
Qed.

Lemma nan_gives_zero_witness :
  phi BSpline4 (Scalar NaN) = Ok (Scalar (Fin 0%Q)).
Proof.
  assert (cls_map !! Some 4%Z = Some BSpline4) as H by apply registered_subclasses.
  destruct (nan_gives_zero 4 BSpline4 H) as (dphi & dpsi & _ & _ & _ & _ & Hphi & _).
  exact Hphi.
Defined.

(** C8 as stated fails: at NaN the [phi] of order 1 returns zero and raises
    nothing. *)
Lemma nan_not_rejected :
  phi BSpline1 (Scalar NaN) = Ok (Scalar (Fin 0%Q)) /\
  psi BSpline1 (Scalar NaN) = Ok (Scalar (Fin 0%Q)) /\
  forall e, phi BSpline1 (Scalar NaN) <> Raise e.
Proof. repeat split. intros e. discriminate. Qed.

(** ** Continuity at the junctions *)

Lemma junctions_checked (cs : list cond) (fs : list branch) :
  forallb (fun j : Q * branch * branch =>
             Qeq_bool (poly (snd (fst j)) (fst (fst j)))
                      (poly (snd j) (fst (fst j))))
          (junctions cs fs) = true ->
  forall b f g, In (b, f, g) (junctions cs fs) -> (poly f b == poly g b)%Q.
Proof.
  intros H b f g Hin. rewrite forallb_forall in H.
  apply Qeq_bool_iff. exact (H (b, f, g) Hin).
Qed.

(** C6.  For the orders 2 to 5, at every junction of [phi] (there are
    [n - 1]) and of [psi] (there are [4n - 3]) the polynomial on the left
    and the polynomial on the right take the same rational value.  The
    branch of the order-5 [psi] on [3, 7/2), whose constant term is
    497668543/2903040, agrees with its neighbours at 3 and at 7/2. *)
Theorem continuous_at_junctions (n : Z) (self : wavelets) :
  cls_map !! Some n = Some self -> (2 <= n)%Z ->
  (exists dphi dpsi,
    phi_def self = Some dphi /\ psi_def self = Some dpsi /\
    length (junctions (condlist dphi) (funclist dphi)) = Z.to_nat (n - 1) /\
    length (junctions (condlist dpsi) (funclist dpsi)) = Z.to_nat (4 * n - 3) /\
    (forall b f g,
        In (b, f, g) (junctions (condlist dphi) (funclist dphi)) ->
        (poly f b == poly g b)%Q) /\
    (forall b f g,
        In (b, f, g) (junctions (condlist dpsi) (funclist dpsi)) ->
        (poly f b == poly g b)%Q)) /\
  (let left := nth 6 BSpline5_psi_funclist (Const 0%Q) in
   let flagged := nth 7 BSpline5_psi_funclist (Const 0%Q) in
   let right := nth 8 BSpline5_psi_funclist (Const 0%Q) in
   nth 7 BSpline5_psi_condlist (Lt 0%Q) = Between 3%Q (7 / 2)%Q /\
   (poly flagged 0 == 497668543 # 2903040)%Q /\
   (poly left 3 == poly flagged 3)%Q /\
   (poly flagged (7 # 2) == poly right (7 # 2))%Q).
Proof.
  intros H Hn. split.
  - destruct (registered_cases n self H)
      as [[-> ->] | [[-> ->] | [[-> ->] | [[-> ->] | [-> ->]]]]];
      [ lia | | | | ];
      eexists; eexists;
      (split; [ reflexivity | ]); (split; [ reflexivity | ]);
      (split; [ reflexivity | ]); (split; [ reflexivity | ]);
      split; apply junctions_checked; vm_compute; reflexivity.
  - split; [ reflexivity | ].
    repeat split; apply Qeq_bool_iff; vm_compute; reflexivity.
Qed.

Lemma continuous_at_junctions_witness :
  (poly (nth 6 BSpline5_psi_funclist (Const 0%Q)) 3 ==
   poly (nth 7 BSpline5_psi_funclist (Const 0%Q)) 3)%Q.
Proof.
  assert (cls_map !! Some 5%Z = Some BSpline5) as H by apply registered_subclasses.
  assert (2 <= 5)%Z as Hn by lia.
  destruct (continuous_at_junctions 5 BSpline5 H Hn)
    as [(dphi & dpsi & _ & Hpsi & _ & _ & _ & Hc) _].
  injection Hpsi as <-. apply Hc.
  do 5 right. left. reflexivity.
Defined.

(** ** The index ranges *)

Lemma upfrom_seq (n : nat) : forall (a : Z) (s : nat),
  map (fun i => (a + Z.of_nat i)%Z) (seq s n) = upfrom (a + Z.of_nat s) n.
Proof.
  induction n as [| n IH]; intros a s; simpl; [ reflexivity | ].
  f_equal. rewrite IH. f_equal. lia.
Qed.

Lemma range_int (a b : Z) : range (PyInt a) (PyInt b) = Ok (interval a (b - 1)).
Proof.
  unfold range, interval. rewrite upfrom_seq. do 2 f_equal; lia.
Qed.

Lemma upfrom_ge (len : nat) : forall lo j, In j (upfrom lo len) -> (lo <= j)%Z.
Proof.
  induction len as [| len IH]; intros lo j; simpl; [ tauto | ].
  intros [<- | Hin]; [ lia | ]. apply IH in Hin. lia.
Qed.

Lemma interval_empty (lo hi : Z) : (hi < lo)%Z -> interval lo hi = [].
Proof.
  intros H. unfold interval.
  replace (Z.to_nat (hi - lo + 1)) with 0%nat by lia. reflexivity.
Qed.

Lemma interval_In (lo hi j : Z) : In j (interval lo hi) <-> (lo <= j <= hi)%Z.
Proof.
  unfold interval. remember (Z.to_nat (hi - lo + 1)) as len eqn:Hlen.
  revert lo Hlen. induction len as [| len IH]; intros lo Hlen; simpl.
  - lia.
  - rewrite (IH (lo + 1)%Z) by lia. lia.
Qed.

Lemma pypow2_int (e : Z) : (0 <= e)%Z -> pypow2 e = PyInt (2 ^ e).
Proof.
  intros H. unfold pypow2.
  destruct (0 <=? e)%Z eqn:He; [ reflexivity | ].
  apply Z.leb_gt in He. lia.
Qed.

Lemma for_each_extend {A B C : Type} (f : A -> result B) (g : A -> B)
      (h : A -> B -> list C) (js : list A) : forall acc,
  (forall j, In j js -> f j = Ok (g j)) ->
  for_each (fun acc j => r ← f j; mret (acc ++ h j r)) js acc =
  Ok (acc ++ flat_map (fun j => h j (g j)) js).
Proof.
  induction js as [| j js IH]; intros acc H; simpl.
  - rewrite app_nil_r. reflexivity.
  - rewrite (H j) by (left; reflexivity). simpl.
    rewrite IH by (intros j' Hj'; apply H; right; exact Hj').
    rewrite app_assoc. reflexivity.
Qed.

Lemma phi_range_interval (self : wavelets) (n : Z) :
  order self = Some n ->
  phi_range self = Ok (map (fun k => (0, k)%Z) (interval (- (n - 1)) 0)).
Proof.
  intros H. unfold phi_range. rewrite H, range_int. reflexivity.
Qed.

Lemma psi_range_interval (self : wavelets) (n : Z) :
  order self = Some n -> (1 <= n)%Z ->
  psi_range self = Ok (spec_psi_list n).
Proof.
  intros H Hn. unfold psi_range. rewrite H, range_int.
  rewrite (pypow2_int (n - 1)) by lia. cbn [pyneg pyadd mbind result_bind].
  replace (n + 1 - 1)%Z with n by lia.
  rewrite (for_each_extend
             (fun psi_j => range (PyInt (- 2 ^ (n - 1) + 1)) (pypow2 psi_j))
             (fun psi_j => interval (- 2 ^ (n - 1) + 1) (2 ^ psi_j - 1))
             (fun psi_j r => map (fun k => (psi_j, k)) r)).
  - reflexivity.
  - intros j Hj. apply interval_In in Hj.
    rewrite pypow2_int by lia. apply range_int.
Qed.

(** C2.  For an order [n >= 1] the enumerator produces the two lists of the
    specification; for order 1 they are [(0,0)] and [(0,0), (1,0), (1,1)],
    and the feature length is 4. *)
Theorem index_ranges (self : wavelets) (n : Z) :
  order self = Some n -> (1 <= n)%Z ->
  phi_range self = Ok (spec_phi_list n) /\
  psi_range self = Ok (spec_psi_list n) /\
  (n = 1%Z ->
   phi_range self = Ok [(0, 0)%Z] /\
   psi_range self = Ok [(0, 0)%Z; (1, 0)%Z; (1, 1)%Z] /\
   repetition self = Ok 4%nat).
Proof.
  intros H Hn.
  assert (phi_range self = Ok (spec_phi_list n)) as Hphi
    by (apply phi_range_interval, H).
  assert (psi_range self = Ok (spec_psi_list n)) as Hpsi
    by (apply psi_range_interval; assumption).
  split; [ exact Hphi | ]. split; [ exact Hpsi | ].
  intros ->. unfold repetition, phi_len, psi_len. rewrite Hphi, Hpsi.
  repeat split.
Qed.

Lemma index_ranges_witness :
  psi_range BSpline2 =
  Ok [(0, -1)%Z; (0, 0)%Z; (1, -1)%Z; (1, 0)%Z; (1, 1)%Z;
      (2, -1)%Z; (2, 0)%Z; (2, 1)%Z; (2, 2)%Z; (2, 3)%Z].
Proof.
  assert (order BSpline2 = Some 2%Z) as H by reflexivity.
  assert (1 <= 2)%Z as Hn by lia.
  exact (proj1 (proj2 (index_ranges BSpline2 2 H Hn))).
Defined.

(** The lists of the specification hold what its intervals say, in
    ascending order. *)
Lemma spec_psi_list_In (n j k : Z) :
  In (j, k) (spec_psi_list n) <->
  (0 <= j <= n)%Z /\ (- 2 ^ (n - 1) + 1 <= k <= 2 ^ j - 1)%Z.
Proof.
  unfold spec_psi_list. rewrite in_flat_map. split.
  - intros (j' & Hj' & Hin). apply in_map_iff in Hin as (k' & [= <- <-] & Hk').
    apply interval_In in Hj', Hk'. tauto.
  - intros [Hj Hk]. exists j. split; [ apply interval_In, Hj | ].
    apply in_map_iff. exists k. split; [ reflexivity | apply interval_In, Hk ].
Qed.

(** C9, as the code has it.  The enumerator validates nothing: for an order
    below 1 the list of [phi] is empty, for a negative order the list of
    [psi] is empty too, and at order 0 the list of [psi] fails with the
    TypeError of [range] on the float [2**(-1)]. *)
Theorem index_ranges_below_one (self : wavelets) (n : Z) :
  order self = Some n -> (n < 1)%Z ->
  phi_range self = Ok [] /\
  (n < 0 -> psi_range self = Ok [])%Z /\
  (n = 0%Z -> psi_range self = Raise TypeError).
Proof.
  intros H Hn. split; [ | split ].
  - rewrite (phi_range_interval self n H), interval_empty by lia. reflexivity.
  - intros Hneg. unfold psi_range. rewrite H, range_int.
    rewrite interval_empty by lia. reflexivity.
  - intros ->. unfold psi_range. rewrite H. reflexivity.
Qed.

Lemma index_ranges_below_one_witness :
  phi_range (Class (Some (-3)%Z) None None) = Ok [] /\
  psi_range (Class (Some 0%Z) None None) = Raise TypeError.
Proof.
  assert (-3 < 1)%Z as H3 by lia. assert (0 < 1)%Z as H0 by lia.
  split.
  - exact (proj1 (index_ranges_below_one
                    (Class (Some (-3)%Z) None None) (-3) eq_refl H3)).
  - exact (proj2 (proj2 (index_ranges_below_one
                           (Class (Some 0%Z) None None) 0 eq_refl H0)) eq_refl).
Defined.

(** C9 as stated fails: at order -1 both lists are produced, empty, and
    nothing is raised. *)
Lemma negative_order_not_rejected :
  phi_range (Class (Some (-1)%Z) None None) = Ok [] /\
  psi_range (Class (Some (-1)%Z) None None) = Ok [].
Proof. split; reflexivity. Qed.

(** ** Stacking the features *)

Lemma amap_amap {A B C : Type} (f : B -> C) (g : A -> B) (x : ndarray A) :
  amap f (amap g x) = amap (fun a => f (g a)) x.
Proof.
  destruct x as [a | l | rows]; simpl; [ reflexivity | | ].
  - rewrite map_map. reflexivity.
  - rewrite map_map. f_equal. apply map_ext. intros row. apply map_map.
Qed.

Lemma mapM_ok {A B : Type} (f : A -> result B) (g : A -> B) (l : list A) :
  (forall a, f a = Ok (g a)) -> mapM f l = Ok (map g l).
Proof.
  intros H. induction l as [| a l IH]; [ reflexivity | ].
  change (mapM f (a :: l)) with (b ← f a; bs ← mapM f l; mret (b :: bs)).
  rewrite H, IH. reflexivity.
Qed.

Lemma flat_map_singleton {A B : Type} (f : A -> B) (l : list A) :
  flat_map (fun a => [f a]) l = map f l.
Proof. induction l as [| a l IH]; simpl; congruence. Qed.

Lemma zip_with_map_same {A B C D : Type} (h : B -> C -> D) (f : A -> B)
      (g : A -> C) (l : list A) :
  zip_with h (map f l) (map g l) = map (fun a => h (f a) (g a)) l.
Proof. induction l as [| a l IH]; simpl; congruence. Qed.

Section Stack.
Context {A B : Type}.
Implicit Types (gs : list (A -> B)) (g : A -> B).

Lemma hstack_scalar gs (e : A) :
  gs <> [] ->
  hstack (map (fun g => amap g (Scalar e)) gs) = Ok (Arr1 (map (fun g => g e) gs)).
Proof.
  intros Hne. destruct gs as [| g gs]; [ congruence | ].
  unfold hstack. rewrite map_map. simpl.
  assert (forall l : list (A -> B),
             concatenate0 (map (fun g => Arr1 [g e]) l) =
             Ok (map (fun g => g e) l)) as H.
  { induction l as [| g' l IH]; simpl; [ reflexivity | ].
    rewrite IH. reflexivity. }
  rewrite H. reflexivity.
Qed.

Lemma hstack_vector gs (xs : list A) :
  gs <> [] ->
  hstack (map (fun g => amap g (Arr1 xs)) gs) =
  Ok (Arr1 (flat_map (fun g => map g xs) gs)).
Proof.
  intros Hne. destruct gs as [| g gs]; [ congruence | ].
  unfold hstack. rewrite map_map. simpl.
  assert (forall l : list (A -> B),
             concatenate0 (map (fun g => Arr1 (map g xs)) l) =
             Ok (flat_map (fun g => map g xs) l)) as H.
  { induction l as [| g' l IH]; simpl; [ reflexivity | ].
    rewrite IH. reflexivity. }
  rewrite H. reflexivity.
Qed.

Lemma concatenate1_rows gs (rows : list (list A)) :
  gs <> [] ->
  concatenate1 (map (fun g => Arr2 (map (map g) rows)) gs) =
  Ok (map (fun row => flat_map (fun g => map g row) gs) rows).
Proof.
  induction gs as [| g gs IH]; [ congruence | ]. intros _.
  destruct gs as [| g' gs].
  - simpl. f_equal. apply map_ext. intros row. rewrite app_nil_r. reflexivity.
  - change (concatenate1 (map (fun g => Arr2 (map (map g) rows)) (g :: g' :: gs)))
      with (rest ← concatenate1 (map (fun g => Arr2 (map (map g) rows)) (g' :: gs));
            if Nat.eqb (length (map (map g) rows)) (length rest)
            then mret (zip_with (fun r r' => r ++ r') (map (map g) rows) rest)
            else Raise ValueError).
    rewrite IH by discriminate. cbn [mbind result_bind].
    rewrite !length_map, Nat.eqb_refl.
    cbn [mret result_ret]. f_equal.
    rewrite zip_with_map_same. reflexivity.
Qed.

Lemma hstack_matrix gs (rows : list (list A)) :
  gs <> [] ->
  hstack (map (fun g => amap g (Arr2 rows)) gs) =
  Ok (Arr2 (map (fun row => flat_map (fun g => map g row) gs) rows)).
Proof.
  intros Hne. unfold hstack. rewrite map_map.
  change (map (fun g => atleast_1d (amap g (Arr2 rows))) gs)
    with (map (fun g => Arr2 (map (map g) rows)) gs).
  destruct gs as [| g gs]; [ congruence | ].
  cbn [map ndim Nat.eqb].
  change (Arr2 (map (map g) rows) :: map (fun g => Arr2 (map (map g) rows)) gs)
    with (map (fun g => Arr2 (map (map g) rows)) (g :: gs)).
  rewrite (concatenate1_rows (g :: gs) rows Hne). reflexivity.
Qed.

(** Entry [f * N + i] of the stacked vector is feature [f] of sample [i]. *)
Lemma nth_error_stacked gs (xs : list A) : forall (f i : nat) g x,
  nth_error gs f = Some g -> nth_error xs i = Some x ->
  nth_error (flat_map (fun g => map g xs) gs) (f * length xs + i) = Some (g x).
Proof.
  induction gs as [| g0 gs IH]; intros f i g x Hg Hx.
  - destruct f; discriminate.
  - destruct f as [| f]; simpl in Hg |- *.
    + injection Hg as ->.
      rewrite nth_error_app1
        by (rewrite length_map; apply nth_error_Some; congruence).
      apply map_nth_error, Hx.
    + rewrite nth_error_app2 by (rewrite length_map; lia).
      rewrite length_map.
      replace (length xs + f * length xs + i - length xs)%nat
        with (f * length xs + i)%nat by lia.
      apply IH; assumption.
Qed.

Lemma length_stacked gs (xs : list A) :
  length (flat_map (fun g => map g xs) gs) = (length gs * length xs)%nat.
Proof.
  induction gs as [| g gs IH]; simpl; [ reflexivity | ].
  rewrite length_app, length_map, IH. reflexivity.
Qed.
End Stack.

(** ** decompose *)

Lemma phi_j_k_feature (n : Z) (self : wavelets) (dphi dpsi : piecewise_def)
      (x : ndarray float) (jk : Z * Z) :
  well_formed n self dphi dpsi ->
  phi_j_k self x (fst jk) (snd jk) = Ok (amap (feature dphi jk) x).
Proof.
  intros W. unfold phi_j_k.
  rewrite (phi_eval self dphi _ (wf_phi _ _ _ _ W) (wf_phi_len _ _ _ _ W)).
  cbn [mbind result_bind mret result_ret]. rewrite !amap_amap. reflexivity.
Qed.

Lemma psi_j_k_feature (n : Z) (self : wavelets) (dphi dpsi : piecewise_def)
      (x : ndarray float) (jk : Z * Z) :
  well_formed n self dphi dpsi ->
  psi_j_k self x (fst jk) (snd jk) = Ok (amap (feature dpsi jk) x).
Proof.
  intros W. unfold psi_j_k.
  rewrite (psi_eval self dpsi _ (wf_psi _ _ _ _ W) (wf_psi_len _ _ _ _ W)).
  cbn [mbind result_bind mret result_ret]. rewrite !amap_amap. reflexivity.
Qed.

Lemma length_upfrom (len : nat) : forall lo, length (upfrom lo len) = len.
Proof. induction len as [| len IH]; intros lo; simpl; congruence. Qed.

Lemma length_interval (lo hi : Z) : length (interval lo hi) = Z.to_nat (hi - lo + 1).
Proof. apply length_upfrom. Qed.

Lemma features_nonempty (n : Z) (dphi dpsi : piecewise_def) :
  (1 <= n)%Z -> features n dphi dpsi <> [].
Proof.
  intros Hn Hnil. apply (f_equal (@length _)) in Hnil.
  unfold features, spec_phi_list in Hnil.
  rewrite length_app, !length_map, length_interval in Hnil. simpl in Hnil. lia.
Qed.

Lemma decompose_features (n : Z) (self : wavelets) (dphi dpsi : piecewise_def)
      (x : ndarray float) :
  well_formed n self dphi dpsi ->
  decompose self x = hstack (map (fun g => amap g x) (features n dphi dpsi)).
Proof.
  intros W. pose proof (wf_range _ _ _ _ W) as Hn. unfold decompose.
  rewrite (phi_range_interval self n (wf_order _ _ _ _ W)).
  rewrite (psi_range_interval self n (wf_order _ _ _ _ W)) by lia.
  cbn [mbind result_bind].
  rewrite (mapM_ok (fun jk => phi_j_k self x (fst jk) (snd jk))
                   (fun jk => amap (feature dphi jk) x))
    by (intros jk; apply (phi_j_k_feature n self dphi dpsi), W).
  cbn [mbind result_bind].
  rewrite (mapM_ok (fun jk => psi_j_k self x (fst jk) (snd jk))
                   (fun jk => amap (feature dpsi jk) x))
    by (intros jk; apply (psi_j_k_feature n self dphi dpsi), W).
  unfold features, spec_phi_list. rewrite map_app, !map_map. reflexivity.
Qed.

Lemma repetition_features (n : Z) (self : wavelets) (dphi dpsi : piecewise_def) :
  well_formed n self dphi dpsi ->
  repetition self = Ok (length (features n dphi dpsi)).
Proof.
  intros W. pose proof (wf_range _ _ _ _ W) as Hn.
  unfold repetition, phi_len, psi_len.
  rewrite (phi_range_interval self n (wf_order _ _ _ _ W)).
  rewrite (psi_range_interval self n (wf_order _ _ _ _ W)) by lia.
  cbn [mbind result_bind mret result_ret].
  unfold features, spec_phi_list. rewrite length_app, !length_map. reflexivity.
Qed.

Lemma Forall2_map_r {A B : Type} (P : A -> B -> Prop) (f : A -> B) (l : list A) :
  (forall a, P a (f a)) -> Forall2 P l (map f l).
Proof. intros H. induction l; simpl; constructor; auto. Qed.

(** X1.  For a scalar sample and a registered order, [decompose] returns one
    vector: the values [phi_{0,k}(x)] in the order of [phi_range], then the
    values [psi_{j,k}(x)] in the order of [psi_range]; its length is
    [repetition], which does not depend on the sample. *)
Theorem decompose_scalar_layout (n : Z) (self : wavelets) (x : float) :
  cls_map !! Some n = Some self ->
  exists pr qr vs ws,
    phi_range self = Ok pr /\ psi_range self = Ok qr /\
    Forall (fun jk => fst jk = 0%Z) pr /\
    Forall2 (fun jk v => phi_j_k self (Scalar x) (fst jk) (snd jk) = Ok (Scalar v))
            pr vs /\
    Forall2 (fun jk w => psi_j_k self (Scalar x) (fst jk) (snd jk) = Ok (Scalar w))
            qr ws /\
    decompose self (Scalar x) = Ok (Arr1 (vs ++ ws)) /\
    phi_len self = Ok (length vs) /\ psi_len self = Ok (length ws) /\
    repetition self = Ok (length (vs ++ ws)).
Proof.
  intros H. destruct (registered_well_formed n self H) as (dphi & dpsi & W).
  pose proof (wf_range _ _ _ _ W) as Hn.
  pose proof (phi_range_interval self n (wf_order _ _ _ _ W)) as Hphi.
  pose proof (psi_range_interval self n (wf_order _ _ _ _ W) (proj1 Hn)) as Hpsi.
  exists (spec_phi_list n), (spec_psi_list n),
         (map (fun jk => feature dphi jk x) (spec_phi_list n)),
         (map (fun jk => feature dpsi jk x) (spec_psi_list n)).
  split; [ exact Hphi | ]. split; [ exact Hpsi | ].
  split; [ | split; [ | split; [ | split; [ | split; [ | split ] ] ] ] ].
  - unfold spec_phi_list. apply Forall_forall. intros jk Hin.
    apply list_elem_of_In, in_map_iff in Hin as (k & <- & _). reflexivity.
  - apply Forall2_map_r. intros jk.
    apply (phi_j_k_feature n self dphi dpsi (Scalar x) jk W).
  - apply Forall2_map_r. intros jk.
    apply (psi_j_k_feature n self dphi dpsi (Scalar x) jk W).
  - rewrite (decompose_features n self dphi dpsi _ W).
    rewrite hstack_scalar by (apply features_nonempty; lia).
    unfold features. rewrite map_app, !map_map. reflexivity.
  - unfold phi_len. rewrite Hphi, length_map. reflexivity.
  - unfold psi_len. rewrite Hpsi, length_map. reflexivity.
  - rewrite (repetition_features n self dphi dpsi W).
    unfold features. rewrite !length_app, !length_map. reflexivity.
Qed.

Lemma decompose_scalar_layout_witness :
  exists out, decompose BSpline1 (Scalar (Fin (1 # 2)%Q)) = Ok (Arr1 out) /\
              length out = 4%nat.
Proof.
  assert (cls_map !! Some 1%Z = Some BSpline1) as H by apply registered_subclasses.
  destruct (decompose_scalar_layout 1 BSpline1 (Fin (1 # 2)%Q) H)
    as (pr & qr & vs & ws & _ & _ & _ & _ & _ & Hd & _ & _ & Hr).
  exists (vs ++ ws). split; [ exact Hd | ].
  assert (repetition BSpline1 = Ok 4%nat) as H4 by reflexivity.
  rewrite H4 in Hr. injection Hr as <-. reflexivity.
Defined.

Lemma decompose_scalar_row (n : Z) (self : wavelets) (dphi dpsi : piecewise_def)
      (x : float) :
  well_formed n self dphi dpsi ->
  decompose self (Scalar x) = Ok (Arr1 (map (fun g => g x) (features n dphi dpsi))).
Proof.
  intros W. pose proof (wf_range _ _ _ _ W) as Hn.
  rewrite (decompose_features n self dphi dpsi _ W).
  apply hstack_scalar, features_nonempty. lia.
Qed.

(** X2.  For a 1-D array of [N] samples and a registered order, [decompose]
    returns a 1-D array of [repetition * N] entries, one block of [N] per
    feature: entry [f * N + i] is entry [f] of [decompose] on sample [i]. *)
Theorem decompose_vector_layout (n : Z) (self : wavelets) (xs : list float) :
  cls_map !! Some n = Some self ->
  exists F out,
    repetition self = Ok F /\
    decompose self (Arr1 xs) = Ok (Arr1 out) /\
    length out = (F * length xs)%nat /\
    forall i x, nth_error xs i = Some x ->
      exists row,
        decompose self (Scalar x) = Ok (Arr1 row) /\ length row = F /\
        forall f v, nth_error row f = Some v ->
                    nth_error out (f * length xs + i) = Some v.
Proof.
  intros H. destruct (registered_well_formed n self H) as (dphi & dpsi & W).
  pose proof (wf_range _ _ _ _ W) as Hn.
  set (gs := features n dphi dpsi).
  exists (length gs), (flat_map (fun g => map g xs) gs).
  split; [ apply (repetition_features n self dphi dpsi W) | ].
  split; [ | split ].
  - rewrite (decompose_features n self dphi dpsi _ W).
    apply hstack_vector, features_nonempty. lia.
  - apply length_stacked.
  - intros i x Hx. exists (map (fun g => g x) gs).
    split; [ apply (decompose_scalar_row n self dphi dpsi x W) | ].
    split; [ apply length_map | ].
    intros f v Hv.
    destruct (nth_error gs f) as [g |] eqn:Hg.
    + rewrite (map_nth_error _ _ _ Hg) in Hv. injection Hv as <-.
      apply nth_error_stacked; assumption.
    + apply nth_error_None in Hg.
      assert (nth_error (map (fun g => g x) gs) f <> None) as Hne by congruence.
      apply nth_error_Some in Hne. rewrite length_map in Hne. lia.
Qed.

Lemma decompose_vector_layout_witness :
  exists out,
    decompose BSpline1 (Arr1 [Fin (1 # 2)%Q; Fin (1 # 4)%Q]) = Ok (Arr1 out) /\
    length out = 8%nat.
Proof.
  assert (cls_map !! Some 1%Z = Some BSpline1) as H by apply registered_subclasses.
  destruct (decompose_vector_layout 1 BSpline1 [Fin (1 # 2)%Q; Fin (1 # 4)%Q] H)
    as (F & out & Hr & Hd & Hl & _).
  exists out. split; [ exact Hd | ].
  assert (repetition BSpline1 = Ok 4%nat) as H4 by reflexivity.
  rewrite H4 in Hr. injection Hr as <-. exact Hl.
Defined.

(** X3.  For a column of [N] samples (an [N x 1] array) and a registered order,
    [decompose] returns [N] rows, and row [i] is [decompose] on sample [i]
    alone, of length [repetition]. *)
Theorem decompose_column_layout (n : Z) (self : wavelets) (xs : list float) :
  cls_map !! Some n = Some self ->
  exists F out,
    repetition self = Ok F /\
    decompose self (Arr2 (map (fun x => [x]) xs)) = Ok (Arr2 out) /\
    length out = length xs /\
    forall i x, nth_error xs i = Some x ->
      exists row,
        decompose self (Scalar x) = Ok (Arr1 row) /\ length row = F /\
        nth_error out i = Some row.
Proof.
  intros H. destruct (registered_well_formed n self H) as (dphi & dpsi & W).
  pose proof (wf_range _ _ _ _ W) as Hn.
  set (gs := features n dphi dpsi).
  exists (length gs), (map (fun x => map (fun g => g x) gs) xs).
  split; [ apply (repetition_features n self dphi dpsi W) | ].
  split; [ | split ].
  - rewrite (decompose_features n self dphi dpsi _ W).
    rewrite hstack_matrix by (apply features_nonempty; lia).
    rewrite map_map.
    rewrite (map_ext _ (fun x => map (fun g => g x) gs))
      by (intros x; apply flat_map_singleton).
    reflexivity.
  - apply length_map.
  - intros i x Hx. exists (map (fun g => g x) gs).
    split; [ apply (decompose_scalar_row n self dphi dpsi x W) | ].
    split; [ apply length_map | ].
    apply (map_nth_error (fun x => map (fun g => g x) gs)), Hx.
Qed.

Lemma decompose_column_layout_witness :
  exists out,
    decompose BSpline1 (Arr2 [[Fin (1 # 2)%Q]; [Fin (1 # 4)%Q]]) = Ok (Arr2 out) /\
    length out = 2%nat.
Proof.
  assert (cls_map !! Some 1%Z = Some BSpline1) as H by apply registered_subclasses.
  destruct (decompose_column_layout 1 BSpline1 [Fin (1 # 2)%Q; Fin (1 # 4)%Q] H)
    as (F & out & _ & Hd & Hl & _).
  exists out. split; [ exact Hd | exact Hl ].
Defined.

(** ** The branch that [np.piecewise] evaluates *)

Lemma count_true_cons_true (x : float) (c : cond) (cs : list cond) :
  holds x c = true -> count_true x (c :: cs) = S (count_true x cs).
Proof. intros H. rewrite count_true_cons, H. reflexivity. Qed.







(** ** Orders that are not positive integers *)

(** X4.  A class whose order is None, as the base class that [get_bspline(None)]
    returns, fails in the index arithmetic: the two ranges, the lengths and
    [decompose] raise TypeError, before [phi] or [psi] is called. *)
Theorem order_None_raises_TypeError (self : wavelets) (x : ndarray float) :
  order self = None ->
  phi_range self = Raise TypeError /\ psi_range self = Raise TypeError /\
  repetition self = Raise TypeError /\
  decompose self x = Raise TypeError /\
  decompose_order x None = Raise TypeError.
Proof.
  intros H.
  assert (phi_range self = Raise TypeError) as Hphi
    by (unfold phi_range; rewrite H; reflexivity).
  assert (psi_range self = Raise TypeError) as Hpsi
    by (unfold psi_range; rewrite H; reflexivity).
  split; [ exact Hphi | ]. split; [ exact Hpsi | ].
  split; [ unfold repetition, phi_len; rewrite Hphi; reflexivity | ].
  split; [ unfold decompose; rewrite Hphi; reflexivity | ].
  unfold decompose_order.
  rewrite (proj1 (proj2 base_class_lookup)).
  reflexivity.
Qed.

Lemma order_None_raises_TypeError_witness :
  decompose BSplineWavelets (Scalar (Fin 1%Q)) = Raise TypeError.
Proof.
  exact (proj1 (proj2 (proj2 (proj2
           (order_None_raises_TypeError BSplineWavelets (Scalar (Fin 1%Q)) eq_refl))))).
Defined.

Lemma psi_range_negative (self : wavelets) (n : Z) :
  order self = Some n -> (n < 0)%Z -> psi_range self = Ok [].
Proof.
  intros H Hn. unfold psi_range. rewrite H, range_int.
  rewrite interval_empty by lia. reflexivity.
Qed.

(** X5.  A class with a negative order has no index at all, and [decompose]
    fails with the ValueError of [np.hstack] on an empty list, whatever its
    [phi] and [psi]; with order 0 it fails with the TypeError of the [psi]
    range. *)
Theorem decompose_nonpositive_order (self : wavelets) (n : Z) (x : ndarray float) :
  order self = Some n -> (n < 1)%Z ->
  (n < 0 -> repetition self = Ok 0%nat /\ decompose self x = Raise ValueError)%Z /\
  (n = 0%Z -> decompose self x = Raise TypeError).
Proof.
  intros H Hn.
  assert (phi_range self = Ok []) as Hphi
    by (rewrite (phi_range_interval self n H), interval_empty by lia; reflexivity).
  split.
  - intros Hneg. pose proof (psi_range_negative self n H Hneg) as Hpsi.
    unfold repetition, phi_len, psi_len, decompose. rewrite Hphi, Hpsi.
    split; reflexivity.
  - intros ->. unfold decompose. rewrite Hphi.
    assert (psi_range self = Raise TypeError) as Hpsi
      by (unfold psi_range; rewrite H; reflexivity).
    cbn [mbind result_bind mapM mret result_ret]. rewrite Hpsi. reflexivity.
Qed.

Lemma decompose_nonpositive_order_witness :
  decompose (Class (Some (-2)%Z) None None) (Scalar (Fin 1%Q)) = Raise ValueError /\
  decompose (Class (Some 0%Z) None None) (Scalar (Fin 1%Q)) = Raise TypeError.
Proof.
  assert (-2 < 1)%Z as H2 by lia. assert (-2 < 0)%Z as H2' by lia.
  assert (0 < 1)%Z as H0 by lia.
  split.
  - exact (proj2 (proj1 (decompose_nonpositive_order
                           (Class (Some (-2)%Z) None None) (-2)
                           (Scalar (Fin 1%Q)) eq_refl H2) H2')).
  - exact (proj2 (decompose_nonpositive_order
                    (Class (Some 0%Z) None None) 0
                    (Scalar (Fin 1%Q)) eq_refl H0) eq_refl).
Defined.

(** ** The registry and the factory *)

(** X7.  Whenever [get_bspline] returns a class, the key is None or one of
    1, ..., 5, the class is the registry entry of that key, and its [order]
    attribute is the requested key. *)
Theorem get_bspline_order (k : option Z) (cls : wavelets) :
  get_bspline k = Ok cls ->
  order cls = k /\ cls_map !! k = Some cls /\
  (k = None \/ exists n, (1 <= n <= 5)%Z /\ k = Some n).
Proof.
  unfold get_bspline, get. intros H.
  destruct (cls_map !! k) as [c |] eqn:Hl; [ | discriminate ].
  injection H as <-.
  destruct k as [n |].
  - destruct (registered_cases n c Hl)
      as [[-> ->] | [[-> ->] | [[-> ->] | [[-> ->] | [-> ->]]]]];
      (split; [ reflexivity | split; [ reflexivity | ] ]);
      right; eexists; (split; [ | reflexivity ]); lia.
  - rewrite (proj1 base_class_lookup) in Hl.
    injection Hl as <-. split; [ reflexivity | ]. split; [ reflexivity | ].
    left. reflexivity.
Qed.

Lemma get_bspline_order_witness : order BSpline3 = Some 3%Z.
Proof.
  assert (get_bspline (Some 3%Z) = Ok BSpline3) as H.
  { unfold get_bspline, get.
    rewrite (proj1 (proj2 (proj2 registered_subclasses))). reflexivity. }
  exact (proj1 (get_bspline_order (Some 3%Z) BSpline3 H)).
Defined.

(** ** The length of the feature vector *)

Lemma length_levels (lo : Z) (len : nat) : forall s,
  (0 <= s)%Z -> (lo <= 1)%Z ->
  Z.of_nat (length (flat_map (fun j => map (fun k => (j, k))
                                           (interval lo (2 ^ j - 1)))
                             (upfrom s len))) =
  (Z.of_nat len * (- lo) + 2 ^ s * (2 ^ Z.of_nat len - 1))%Z.
Proof.
  induction len as [| len IH]; intros s Hs Hlo.
  - cbn [upfrom flat_map length]. change (Z.of_nat 0) with 0%Z.
    rewrite Z.pow_0_r. ring.
  - cbn [upfrom flat_map].
    rewrite length_app, length_map, length_interval, Nat2Z.inj_add.
    rewrite (IH (s + 1)%Z) by lia.
    assert (0 < 2 ^ s)%Z as Hpos by (apply Z.pow_pos_nonneg; lia).
    rewrite Z2Nat.id by lia.
    rewrite Nat2Z.inj_succ, !Z.pow_succ_r by lia.
    replace (s + 1)%Z with (Z.succ s) by lia. rewrite Z.pow_succ_r by lia.
    ring.
Qed.

(** X6.  For an order [n >= 1] there are [n] indices of [phi] and
    [(n + 1) * (2^(n-1) - 1) + 2^(n+1) - 1] indices of [psi]; the feature
    vector has as many entries as both together. *)
Theorem feature_length (self : wavelets) (n : Z) :
  order self = Some n -> (1 <= n)%Z ->
  phi_len self = Ok (Z.to_nat n) /\
  psi_len self = Ok (Z.to_nat (psi_count n)) /\
  repetition self = Ok (Z.to_nat (n + psi_count n)).
Proof.
  intros H Hn.
  assert (phi_len self = Ok (Z.to_nat n)) as Hphi.
  { unfold phi_len. rewrite (phi_range_interval self n H).
    cbn [mbind result_bind mret result_ret].
    rewrite length_map, length_interval. do 2 f_equal. lia. }
  assert (0 < 2 ^ (n - 1))%Z as Hpow by (apply Z.pow_pos_nonneg; lia).
  assert (0 < 2 ^ (n + 1))%Z as Hpow' by (apply Z.pow_pos_nonneg; lia).
  assert (Z.of_nat (length (spec_psi_list n)) = psi_count n) as Hcount.
  { unfold spec_psi_list, interval at 2.
    rewrite length_levels by lia. unfold psi_count.
    rewrite Z2Nat.id by lia. replace (n - 0 + 1)%Z with (n + 1)%Z by lia. ring. }
  assert (psi_len self = Ok (Z.to_nat (psi_count n))) as Hpsi.
  { unfold psi_len. rewrite (psi_range_interval self n H Hn).
    cbn [mbind result_bind mret result_ret]. rewrite <- Hcount, Nat2Z.id.
    reflexivity. }
  split; [ exact Hphi | ]. split; [ exact Hpsi | ].
  unfold repetition. rewrite Hphi, Hpsi.
  cbn [mbind result_bind mret result_ret]. f_equal.
  rewrite <- Hcount. lia.
Qed.

Lemma feature_length_witness : repetition BSpline5 = Ok 158%nat.
Proof.
  assert (1 <= 5)%Z as Hn by lia.
  exact (proj2 (proj2 (feature_length BSpline5 5 eq_refl Hn))).
Defined.

(** ** Features outside the support, and at NaN *)

Lemma scale_zero (j : Z) :
  exists s, scale j (Fin 0%Q) = Fin s /\ (rat s == 0)%Q /\ (irr s == 0)%Q.
Proof.
  exists (surd_scale (pow2_half j) 0%Q).
  split; [ reflexivity | ]. split; apply Qmult_0_r.
Qed.



Lemma feature_NaN (d : piecewise_def) (jk : Z * Z) :
  feature d jk NaN = scale (fst jk) (Fin 0%Q).
Proof.
  unfold feature. change (dilate (fst jk) (snd jk) NaN) with (@NaN Q).
  rewrite eval_NaN. reflexivity.
Qed.

Lemma Forall_map_all {A B : Type} (P : B -> Prop) (f : A -> B) (l : list A) :
  (forall a, P (f a)) -> Forall P (map f l).
Proof. intros H. induction l; simpl; constructor; auto. Qed.

(** X11.  A NaN sample gives, for a registered order, a feature vector all of
    whose entries are zero: the NaN is lost, not propagated. *)
Theorem decompose_NaN (n : Z) (self : wavelets) :
  cls_map !! Some n = Some self ->
  exists row,
    decompose self (Scalar NaN) = Ok (Arr1 row) /\
    repetition self = Ok (length row) /\
    Forall (fun v => exists s, v = Fin s /\ (rat s == 0)%Q /\ (irr s == 0)%Q) row.
Proof.
  intros H. destruct (registered_well_formed n self H) as (dphi & dpsi & W).
  exists (map (fun g => g NaN) (features n dphi dpsi)).
  split; [ apply (decompose_scalar_row n self dphi dpsi NaN W) | ].
  split.
  - rewrite length_map. apply (repetition_features n self dphi dpsi W).
  - unfold features. rewrite map_app, !map_map. apply Forall_app.
    split; apply Forall_map_all; intros jk; rewrite feature_NaN;
      destruct (scale_zero (fst jk)) as (s & Hs & Hr & Hi);
      exists s; auto.
Qed.

Lemma decompose_NaN_witness :
  exists row, decompose BSpline2 (Scalar NaN) = Ok (Arr1 row) /\
              length row = 12%nat.
Proof.
  assert (cls_map !! Some 2%Z = Some BSpline2) as H by apply registered_subclasses.
  destruct (decompose_NaN 2 BSpline2 H) as (row & Hd & Hr & _).
  exists row. split; [ exact Hd | ].
  assert (repetition BSpline2 = Ok 12%nat) as H12 by reflexivity.
  rewrite H12 in Hr. injection Hr as <-. reflexivity.
Defined.

(** ** The Haar functions of order 1 *)

(** X9.  The [phi] of order 1 is the indicator of [0, 1), and its [psi] is 1 on
    [0, 1/2), -1 on [1/2, 1) and 0 elsewhere. *)
Theorem haar (q : Q) :
  phi BSpline1 (Scalar (Fin q)) =
    Ok (Scalar (Fin (if Qle_bool 0 q && Qlt_bool q 1 then 1 else 0)%Q)) /\
  psi BSpline1 (Scalar (Fin q)) =
    Ok (Scalar (Fin (if Qle_bool 0 q && Qlt_bool q (1 / 2) then 1
                     else if Qle_bool (1 / 2) q && Qlt_bool q 1 then - (1)
                     else 0)%Q)).
Proof.
  split.
  - rewrite (phi_eval BSpline1 _ _ eq_refl eq_refl).
    cbn [amap]. unfold eval, select.
    cbn [condlist funclist BSpline1_phi_condlist BSpline1_phi_funclist
         map combine fold_left holds fst snd call flt fle fge].
    rewrite !Qlt_bool_negb.
    destruct (Qle_bool 0 q), (Qle_bool 1 q); reflexivity.
  - rewrite (psi_eval BSpline1 _ _ eq_refl eq_refl).
    cbn [amap]. unfold eval, select.
    cbn [condlist funclist BSpline1_psi_condlist BSpline1_psi_funclist
         map combine fold_left holds fst snd call flt fle fge].
    rewrite !Qlt_bool_negb.
    destruct (Qle_bool (1 / 2) q) eqn:Hh.
    + destruct (Qle_bool 0 q), (Qle_bool 1 q); reflexivity.
    + assert (Qle_bool (1 / 2) 1 = true) as H1 by reflexivity.
      rewrite (Qle_bool_below _ _ _ H1 Hh).
      destruct (Qle_bool 0 q); reflexivity.
Qed.

(** ** The edges of the support and the symmetry of the tables *)

Lemma edges_checked (cs : list cond) (fs : list branch) :
  forallb (fun e : Q * branch => Qeq_bool (poly (snd e) (fst e)) 0)
          (edges cs fs) = true ->
  forall b f, In (b, f) (edges cs fs) -> (poly f b == 0)%Q.
Proof.
  intros H b f Hin. rewrite forallb_forall in H.
  apply Qeq_bool_iff. exact (H (b, f) Hin).
Qed.

(** X12.  For the orders 2 to 5 the first polynomial of [phi] and of [psi] is
    zero at the left edge of the support and the last one is zero at the
    right edge, so that the functions join the zero outside continuously. *)
Theorem zero_at_edges (n : Z) (self : wavelets) :
  cls_map !! Some n = Some self -> (2 <= n)%Z ->
  exists dphi dpsi,
    phi_def self = Some dphi /\ psi_def self = Some dpsi /\
    map fst (edges (condlist dphi) (funclist dphi)) = [0%Q; inject_Z n] /\
    map fst (edges (condlist dpsi) (funclist dpsi)) = [0%Q; inject_Z (2 * n - 1)] /\
    (forall b f, In (b, f) (edges (condlist dphi) (funclist dphi)) ->
                 (poly f b == 0)%Q) /\
    (forall b f, In (b, f) (edges (condlist dpsi) (funclist dpsi)) ->
                 (poly f b == 0)%Q).
Proof.
  intros H Hn.
  destruct (registered_cases n self H)
    as [[-> ->] | [[-> ->] | [[-> ->] | [[-> ->] | [-> ->]]]]];
    [ lia | | | | ];
    eexists; eexists;
    (split; [ reflexivity | ]); (split; [ reflexivity | ]);
    (split; [ reflexivity | ]); (split; [ reflexivity | ]);
    split; apply edges_checked; vm_compute; reflexivity.
Qed.

Lemma zero_at_edges_witness :
  (poly (nth 18 BSpline5_psi_funclist (Const 1%Q)) 9 == 0)%Q.
Proof.
  assert (cls_map !! Some 5%Z = Some BSpline5) as H by apply registered_subclasses.
  assert (2 <= 5)%Z as Hn by lia.
  destruct (zero_at_edges 5 BSpline5 H Hn)
    as (dphi & dpsi & _ & Hpsi & _ & _ & _ & Hz).
  injection Hpsi as <-. apply Hz. right. left. reflexivity.
Defined.

Ltac mirror_branch Hf Hg :=
  cbv [funclist nth_error length Nat.sub
       BSpline1_phi_funclist BSpline1_psi_funclist
       BSpline2_phi_funclist BSpline2_psi_funclist
       BSpline3_phi_funclist BSpline3_psi_funclist
       BSpline4_phi_funclist BSpline4_psi_funclist
       BSpline5_phi_funclist BSpline5_psi_funclist] in Hf, Hg;
  injection Hf as <-; injection Hg as <-;
  cbv [poly Z.even inject_Z Z.mul Z.sub Z.add Z.opp Z.pos_sub Pos.mul Pos.add
       Pos.pred_double Pos.succ];
  field.

Ltac mirror_table :=
  let a := fresh "a" in
  let Ha := fresh "Ha" in
  let Hf := fresh "Hf" in
  let Hg := fresh "Hg" in
  intros a f g q Ha Hf Hg;
  cbv [funclist length Nat.sub
       BSpline1_phi_funclist BSpline1_psi_funclist
       BSpline2_phi_funclist BSpline2_psi_funclist
       BSpline3_phi_funclist BSpline3_psi_funclist
       BSpline4_phi_funclist BSpline4_psi_funclist
       BSpline5_phi_funclist BSpline5_psi_funclist] in Ha;
  do 20 (try (destruct a as [| a]; [ first [ lia | mirror_branch Hf Hg ] | ]));
  lia.

(** X13.  The coefficient tables are symmetric.  For each of the orders 1 to 5
    the polynomials of [phi] mirror each other about [n / 2], and those of
    [psi] about [(2n - 1) / 2], with the sign [-1] for odd orders. *)
Theorem table_symmetry (n : Z) (self : wavelets) :
  cls_map !! Some n = Some self ->
  exists dphi dpsi,
    phi_def self = Some dphi /\ psi_def self = Some dpsi /\
    mirrored (funclist dphi) (inject_Z n) 1%Q /\
    mirrored (funclist dpsi) (inject_Z (2 * n - 1))
             (if Z.even n then 1%Q else (- (1))%Q).
Proof.
  intros H.
  destruct (registered_cases n self H)
    as [[-> ->] | [[-> ->] | [[-> ->] | [[-> ->] | [-> ->]]]]];
    eexists; eexists;
    (split; [ reflexivity | ]); (split; [ reflexivity | ]);
    split; unfold mirrored; mirror_table.
Qed.

Lemma table_symmetry_witness :
  (poly (nth 7 BSpline5_psi_funclist (Const 0%Q)) (13 # 4) ==
   - (1) * poly (nth 12 BSpline5_psi_funclist (Const 0%Q)) (9 - (13 # 4)))%Q.
Proof.
  assert (cls_map !! Some 5%Z = Some BSpline5) as H by apply registered_subclasses.
  destruct (table_symmetry 5 BSpline5 H) as (dphi & dpsi & _ & Hpsi & _ & Hm).
  injection Hpsi as <-.
  apply (Hm 7%nat); [ vm_compute; lia | reflexivity | reflexivity ].
Defined.

(** ** The scaling functions sum to one *)







(** ** The indices are enumerated once *)

Lemma NoDup_upfrom (len : nat) : forall lo, NoDup (upfrom lo len).
Proof.
  induction len as [| len IH]; intros lo; simpl; constructor.
  - intros Hin. apply list_elem_of_In, upfrom_ge in Hin. lia.
  - apply IH.
Qed.

Lemma NoDup_pairs (j : Z) (ks : list Z) :
  NoDup ks -> NoDup (map (fun k => (j, k)) ks).
Proof.
  induction 1 as [| k ks Hk Hks IH]; simpl; constructor; [ | exact IH ].
  intros Hin. apply list_elem_of_In, in_map_iff in Hin as (k' & [= ->] & Hin).
  apply Hk, list_elem_of_In, Hin.
Qed.

Lemma NoDup_levels (ks : Z -> list Z) (js : list Z) :
  NoDup js -> (forall j, NoDup (ks j)) ->
  NoDup (flat_map (fun j => map (fun k => (j, k)) (ks j)) js).
Proof.
  intros Hjs Hks. induction Hjs as [| j js Hj Hjs IH]; simpl; [ constructor | ].
  apply NoDup_app. split; [ apply NoDup_pairs, Hks | ]. split; [ | exact IH ].
  intros [j1 k1] Hin1 Hin2.
  apply list_elem_of_In, in_map_iff in Hin1 as (k' & [= <- <-] & _).
  apply list_elem_of_In, in_flat_map in Hin2 as (j' & Hj' & Hin2).
  apply in_map_iff in Hin2 as (k'' & [= -> _] & _).
  apply Hj, list_elem_of_In, Hj'.
Qed.

(** X15.  For an order [n >= 1] the list of [phi] holds each pair [(0, k)] with
    [-(n-1) <= k <= 0] once and nothing else, and the list of [psi] holds
    each pair [(j, k)] with [0 <= j <= n] and
    [-2^(n-1) + 1 <= k <= 2^j - 1] once and nothing else. *)
Theorem indices_enumerated_once (self : wavelets) (n : Z) :
  order self = Some n -> (1 <= n)%Z ->
  exists pr qr,
    phi_range self = Ok pr /\ psi_range self = Ok qr /\
    NoDup pr /\ NoDup qr /\
    (forall j k, In (j, k) pr <-> j = 0%Z /\ (- (n - 1) <= k <= 0)%Z) /\
    (forall j k, In (j, k) qr <->
                 (0 <= j <= n)%Z /\ (- 2 ^ (n - 1) + 1 <= k <= 2 ^ j - 1)%Z).
Proof.
  intros H Hn. exists (spec_phi_list n), (spec_psi_list n).
  split; [ apply phi_range_interval, H | ].
  split; [ apply psi_range_interval; assumption | ].
  split; [ apply NoDup_pairs, NoDup_upfrom | ].
  split; [ apply NoDup_levels; [ | intros j ]; apply NoDup_upfrom | ].
  split; [ | apply spec_psi_list_In ].
  intros j k. unfold spec_phi_list. rewrite in_map_iff. split.
  - intros (k' & [= <- <-] & Hk). apply interval_In in Hk. tauto.
  - intros [-> Hk]. exists k. split; [ reflexivity | apply interval_In, Hk ].
Qed.

Lemma indices_enumerated_once_witness :
  exists qr, psi_range BSpline4 = Ok qr /\ NoDup qr /\ In (4, 15)%Z qr.
Proof.
  assert (1 <= 4)%Z as Hn by lia.
  destruct (indices_enumerated_once BSpline4 4 eq_refl Hn)
    as (pr & qr & _ & Hq & _ & Hnd & _ & Hin).
  exists qr. split; [ exact Hq | ]. split; [ exact Hnd | ].
  apply Hin. vm_compute. repeat split; discriminate.
Defined.
